(** * funplanner: the tool functions of [tools.py]

    A shallow embedding of the four query functions of [tools.py]
    (restaurants, movies, places, travel), of the tool declarations
    [TOOL_DEFINITIONS] and of the dispatcher [execute_tool], with the
    properties stated about them.

    - A Python value is a [pyval]: [None], a [bool], an [int] (an unbounded
      integer of [Z]), a [float] (a binary64 number, the [spec_float] of the
      standard library at precision 53 and maximal exponent 1024), a [str],
      a [list] or a [dict] with keys that are strings, in insertion order.
      These are the values JSON decodes to and the values the functions
      build.
    - A [str] is the string of the bytes of its UTF-8 encoding.
    - A call that may raise returns a [res]: [Ok] with its value or [Raise]
      with the exception, which carries its class and the text [str(e)]
      gives.  The texts are those of CPython 3.11.
    - What the process reads from outside is a [world]: the two keys of the
      environment and an oracle for the GET requests, which gives the decoded
      JSON of a response or the exception of the client.
    - The functions are [async]; each awaits one request and nothing else,
      so a call is modelled as the run of its body.  Time-outs and the
      cancellation of a task are not modelled. *)

From Stdlib Require Import ZArith QArith List String Ascii Bool Lia.
From Stdlib Require Import SpecFloat.
Import ListNotations.

#[local] Set Warnings "-register-all".

Local Open Scope string_scope.
Local Open Scope Z_scope.

(** ** Exceptions and results *)

(** The exception classes the modelled code can raise.  All of them derive
    from [Exception]; [RemoteError] stands for whatever the HTTP client or
    the decoding of its response raises. *)
Inductive exn_class : Type :=
| TypeError
| KeyError
| IndexError
| AttributeError
| OverflowError
| ValueError
| RemoteError.

(** An exception: its class and the text [str(e)] gives. *)
Record exn : Type := Exn { exn_cls : exn_class; exn_msg : string }.

Inductive res (A : Type) : Type :=
| Ok (a : A)
| Raise (e : exn).

Arguments Ok {A} a.
Arguments Raise {A} e.

Definition bind {A B : Type} (c : res A) (k : A -> res B) : res B :=
  match c with
  | Ok a => k a
  | Raise e => Raise e
  end.

Notation "x <- c ;; k" := (bind c (fun x => k))
  (at level 61, c at next level, right associativity).

Definition raise {A : Type} (c : exn_class) (msg : string) : res A :=
  Raise (Exn c msg).

(** ** Binary64 arithmetic *)

Module B64.

Definition prec : Z := 53.
Definition emax : Z := 1024.

Definition mul : spec_float -> spec_float -> spec_float := SFmul prec emax.
Definition add : spec_float -> spec_float -> spec_float := SFadd prec emax.
Definition sub : spec_float -> spec_float -> spec_float := SFsub prec emax.
Definition div : spec_float -> spec_float -> spec_float := SFdiv prec emax.

(** The float nearest to the integer [n] (ties to even); an infinity when
    [n] is out of range. *)
Definition of_Z (n : Z) : spec_float := binary_normalize prec emax n 0 false.

(** The float nearest to [n / d], for integers [n] and [d > 0]: the
    division of [SpecFloat] rounds the exact quotient once, whatever the
    size of the two integers. *)
Definition of_ratio (n : Z) (d : positive) : spec_float :=
  match n with
  | Z0 => S754_zero false
  | Zpos p => div (S754_finite false p 0) (S754_finite false d 0)
  | Zneg p => div (S754_finite true p 0) (S754_finite false d 0)
  end.

(** The float a decimal literal [n / 10^k] of the source denotes. *)
Definition literal (n : Z) (k : nat) : spec_float :=
  of_ratio n (Z.to_pos (10 ^ Z.of_nat k)).

(** Exact comparison of an integer with a float: [None] for a NaN. *)
Definition Zcompare (n : Z) (x : spec_float) : option comparison :=
  match x with
  | S754_nan => None
  | S754_infinity s => Some (if s then Gt else Lt)
  | S754_zero _ => Some (n ?= 0)
  | S754_finite s m e =>
      let v := if s then Zneg m else Zpos m in
      Some (if 0 <=? e then n ?= v * 2 ^ e else n * 2 ^ (- e) ?= v)
  end.

Definition Zleb (n : Z) (x : spec_float) : bool :=
  match Zcompare n x with
  | Some Lt | Some Eq => true
  | _ => false
  end.

Definition Zgtb (n : Z) (x : spec_float) : bool :=
  match Zcompare n x with
  | Some Gt => true
  | _ => false
  end.

Definition is_infinity (x : spec_float) : bool :=
  match x with
  | S754_infinity _ => true
  | _ => false
  end.

Definition is_zero (x : spec_float) : bool :=
  match x with
  | S754_zero _ => true
  | _ => false
  end.

Definition sign_bit (x : spec_float) : bool :=
  match x with
  | S754_zero s | S754_infinity s | S754_finite s _ _ => s
  | S754_nan => false
  end.

Definition ltb : spec_float -> spec_float -> bool := SFltb.
Definition leb : spec_float -> spec_float -> bool := SFleb.

(** The integer a float is equal to, if there is one. *)
Definition to_Z_exact (x : spec_float) : option Z :=
  match x with
  | S754_zero _ => Some 0
  | S754_finite s m e =>
      if 0 <=? e then Some ((if s then Zneg m else Zpos m) * 2 ^ e)
      else if Zpos m mod 2 ^ (- e) =? 0
           then Some ((if s then -1 else 1) * (Zpos m / 2 ^ (- e)))
           else None
  | _ => None
  end.

(** The integer part of a finite float, towards zero. *)
Definition trunc (m : positive) (e : Z) : Z :=
  if 0 <=? e then Zpos m * 2 ^ e else Zpos m / 2 ^ (- e).

(** [fmod] of the C library: the remainder of [x / y] with the sign of [x];
    it is exact. *)
Definition fmod (x y : spec_float) : spec_float :=
  match x, y with
  | S754_nan, _ | _, S754_nan => S754_nan
  | S754_infinity _, _ => S754_nan
  | _, S754_zero _ => S754_nan
  | S754_zero _, _ => x
  | S754_finite _ _ _, S754_infinity _ => x
  | S754_finite sx mx ex, S754_finite _ my ey =>
      let e0 := Z.min ex ey in
      let X := Zpos mx * 2 ^ (ex - e0) in
      let Y := Zpos my * 2 ^ (ey - e0) in
      let R := X mod Y in
      binary_normalize prec emax (if sx then - R else R) e0 sx
  end.

(** [floor] of the C library. *)
Definition floor (x : spec_float) : spec_float :=
  match x with
  | S754_finite s m e =>
      if 0 <=? e then x
      else
        let q := Zpos m / 2 ^ (- e) in
        let r := Zpos m mod 2 ^ (- e) in
        if s then binary_normalize prec emax (- (if r =? 0 then q else q + 1)) 0 true
        else binary_normalize prec emax q 0 false
  | _ => x
  end.

End B64.

(** The literals [0.5], [0.45] and [0.15] of the source. *)
Definition f_0_5 : spec_float := S754_finite false 4503599627370496 (-53).
Definition f_0_45 : spec_float := S754_finite false 8106479329266893 (-54).
Definition f_0_15 : spec_float := S754_finite false 5404319552844595 (-55).

(** ** Text of numbers *)

Definition digit_char (d : Z) : ascii := ascii_of_nat (48 + Z.to_nat d).

Fixpoint digits_fuel (fuel : nat) (n : Z) (acc : string) : string :=
  match fuel with
  | O => acc
  | S fuel' =>
      let acc' := String (digit_char (n mod 10)) acc in
      if n <? 10 then acc' else digits_fuel fuel' (n / 10) acc'
  end.

(** The decimal digits of [n >= 0]. *)
Definition string_of_nonneg (n : Z) : string :=
  digits_fuel (S (Z.to_nat (Z.log2 n))) n "".

(** [str(n)] for an [int]. *)
Definition string_of_Z (n : Z) : string :=
  if n <? 0 then "-" ++ string_of_nonneg (- n) else string_of_nonneg n.

Fixpoint repeat_char (c : ascii) (n : nat) : string :=
  match n with
  | O => ""
  | S n' => String c (repeat_char c n')
  end.

Fixpoint strip_trailing_zeros_fuel (fuel : nat) (d : Z) : Z :=
  match fuel with
  | O => d
  | S fuel' =>
      if (d mod 10 =? 0) && (0 <? d)
      then strip_trailing_zeros_fuel fuel' (d / 10)
      else d
  end.

(** ** [repr] of a float: the shortest decimal that reads back as the float *)

Module FloatRepr.

(** [10^t <= num / den], for [num, den > 0]. *)
Definition le_pow10 (t num den : Z) : bool :=
  if 0 <=? t then 10 ^ t * den <=? num else den <=? num * 10 ^ (- t).

Fixpoint floor_log10_fuel (fuel : nat) (t num den : Z) : Z :=
  match fuel with
  | O => t
  | S fuel' =>
      if le_pow10 (t + 1) num den
      then floor_log10_fuel fuel' (t + 1) num den
      else t
  end.

(** The largest [t] with [10^t <= num / den]. *)
Definition floor_log10 (num den : Z) : Z :=
  let guess := ((Z.log2 num - Z.log2 den) * 30103) / 100000 - 2 in
  floor_log10_fuel 6 guess num den.

(** The float the decimal [d * 10^k] reads as. *)
Definition read_decimal (d k : Z) : spec_float :=
  if 0 <=? k then B64.of_Z (d * 10 ^ k)
  else B64.of_ratio d (Z.to_pos (10 ^ (- k))).

Definition same_float (x y : spec_float) : bool :=
  match x, y with
  | S754_finite s1 m1 e1, S754_finite s2 m2 e2 =>
      Bool.eqb s1 s2 && Pos.eqb m1 m2 && Z.eqb e1 e2
  | _, _ => false
  end.

(** With [n] significant digits: the decimal [d * 10^k] nearest to
    [num / den] among those that read back as [x], if there is one. *)
Definition candidate (x : spec_float) (num den t : Z) (n : nat)
  : option (Z * Z) :=
  let k := t + 1 - Z.of_nat n in
  let N := if 0 <=? k then num else num * 10 ^ (- k) in
  let D := if 0 <=? k then den * 10 ^ k else den in
  let lo := N / D in
  let r := N mod D in
  let lo_ok := same_float (read_decimal lo k) x in
  let hi_ok := same_float (read_decimal (lo + 1) k) x in
  let nearer_hi :=
    match 2 * r ?= D with
    | Lt => false
    | Gt => true
    | Eq => Z.odd lo
    end in
  if lo_ok && hi_ok then Some (if nearer_hi then lo + 1 else lo, k)
  else if lo_ok then Some (lo, k)
  else if hi_ok then Some (lo + 1, k)
  else None.

Fixpoint shortest_fuel (fuel : nat) (x : spec_float) (num den t : Z) (n : nat)
  : Z * Z :=
  match candidate x num den t n with
  | Some dk => dk
  | None =>
      match fuel with
      | O => (0, 0)
      | S fuel' => shortest_fuel fuel' x num den t (S n)
      end
  end.

(** The digits and the position of the decimal point of the shortest
    decimal of the positive float [m * 2^e]: the value is
    [0.digits * 10^decpt]. *)
Definition shortest (m : positive) (e : Z) : string * Z :=
  let num := if 0 <=? e then Zpos m * 2 ^ e else Zpos m in
  let den := if 0 <=? e then 1 else 2 ^ (- e) in
  let t := floor_log10 num den in
  let '(d, k) := shortest_fuel 17 (S754_finite false m e) num den t 1 in
  let d' := strip_trailing_zeros_fuel 20 d in
  let ds := string_of_nonneg d in
  let ds' := string_of_nonneg d' in
  (ds', Z.of_nat (String.length ds) + k).

(** The layout [repr] gives the digits: fixed notation when
    [-4 < decpt <= 16], exponent notation otherwise. *)
Definition layout (ds : string) (decpt : Z) : string :=
  let nd := Z.of_nat (String.length ds) in
  if (decpt <=? -4) || (16 <? decpt) then
    let ex := decpt - 1 in
    let mant :=
      match ds with
      | String c EmptyString => String c EmptyString
      | String c rest => String c ("." ++ rest)
      | EmptyString => ""
      end in
    let es := string_of_nonneg (Z.abs ex) in
    let es' := if Z.abs ex <? 10 then "0" ++ es else es in
    mant ++ "e" ++ (if ex <? 0 then "-" else "+") ++ es'
  else if decpt <=? 0 then
    "0." ++ repeat_char "0" (Z.to_nat (- decpt)) ++ ds
  else if nd <=? decpt then
    ds ++ repeat_char "0" (Z.to_nat (decpt - nd)) ++ ".0"
  else
    substring 0 (Z.to_nat decpt) ds ++ "." ++
    substring (Z.to_nat decpt) (Z.to_nat (nd - decpt)) ds.

(** [repr(x)] for a finite or zero float; the three special values are
    named by the caller ([repr] and the JSON encoder differ on them). *)
Definition finite_repr (x : spec_float) : string :=
  match x with
  | S754_zero s => if s then "-0.0" else "0.0"
  | S754_finite s m e =>
      let '(ds, decpt) := shortest m e in
      (if s then "-" else "") ++ layout ds decpt
  | _ => ""
  end.

(** [repr(x)] and [str(x)]. *)
Definition float_repr (x : spec_float) : string :=
  match x with
  | S754_nan => "nan"
  | S754_infinity s => if s then "-inf" else "inf"
  | _ => finite_repr x
  end.

End FloatRepr.


(** ** Strings

    A Python [str] is embedded as the string of the bytes of its UTF-8
    encoding.  A lone surrogate, which JSON text can denote and UTF-8 has no
    bytes for, is embedded as the three bytes of its code point (what the
    [surrogatepass] handler of the codec writes). *)

Definition byte_of (c : ascii) : Z := Z.of_N (N_of_ascii c).

(** The double quote character. *)
Definition dquote : ascii := "034"%char.

(** [s] between double quotes. *)
Definition quoted (s : string) : string := String dquote (s ++ String dquote "").
Definition char_of (b : Z) : ascii := ascii_of_N (Z.to_N b).

Definition is_upper (c : ascii) : bool :=
  (65 <=? byte_of c) && (byte_of c <=? 90).

Definition to_lower (c : ascii) : ascii :=
  if is_upper c then char_of (byte_of c + 32) else c.

(** [s.lower()].  Every ASCII letter is lowered, and so are the two
    characters outside ASCII whose lowercase holds an ASCII letter: U+0130
    (bytes C4 B0, lowered to [i] followed by U+0307) and U+212A (bytes
    E2 84 AA, lowered to [k]).  The other characters outside ASCII are left
    as they are: their lowercase has no ASCII letter either. *)
Fixpoint py_lower (s : string) : string :=
  match s with
  | EmptyString => EmptyString
  | String c rest =>
      match rest with
      | String c2 rest2 =>
          if (byte_of c =? 196) && (byte_of c2 =? 176) then
            String "i" (String (char_of 204) (String (char_of 135) (py_lower rest2)))
          else
            match rest2 with
            | String c3 rest3 =>
                if (byte_of c =? 226) && (byte_of c2 =? 132) && (byte_of c3 =? 170)
                then String "k" (py_lower rest3)
                else String (to_lower c) (py_lower rest)
            | EmptyString => String (to_lower c) (py_lower rest)
            end
      | EmptyString => String (to_lower c) EmptyString
      end
  end.

(** [k in s] for two strings. *)
Fixpoint contains (k s : string) : bool :=
  prefix k s ||
  match s with
  | EmptyString => false
  | String _ rest => contains k rest
  end.

Fixpoint join (sep : string) (l : list string) : string :=
  match l with
  | [] => ""
  | [x] => x
  | x :: rest => x ++ sep ++ join sep rest
  end.

Definition hex_digit (d : Z) : ascii :=
  if d <? 10 then char_of (48 + d) else char_of (87 + d).

Definition hex2 (n : Z) : string :=
  String (hex_digit (n / 16 mod 16)) (String (hex_digit (n mod 16)) "").

Definition hex4 (n : Z) : string :=
  String (hex_digit (n / 4096 mod 16))
    (String (hex_digit (n / 256 mod 16)) (hex2 n)).

Definition hex8 (n : Z) : string := hex4 (n / 65536) ++ hex4 n.

Definition is_cont (c : ascii) : bool :=
  (128 <=? byte_of c) && (byte_of c <? 192).

(** The code points of a string. *)
Fixpoint utf8_decode (s : string) : list Z :=
  match s with
  | EmptyString => []
  | String c1 r1 =>
      let b1 := byte_of c1 in
      match r1 with
      | String c2 r2 =>
          if (192 <=? b1) && (b1 <? 224) && is_cont c2 then
            ((b1 - 192) * 64 + (byte_of c2 - 128)) :: utf8_decode r2
          else
            match r2 with
            | String c3 r3 =>
                if (224 <=? b1) && (b1 <? 240) && is_cont c2 && is_cont c3 then
                  ((b1 - 224) * 4096 + (byte_of c2 - 128) * 64
                   + (byte_of c3 - 128)) :: utf8_decode r3
                else
                  match r3 with
                  | String c4 r4 =>
                      if (240 <=? b1) && (b1 <? 248) && is_cont c2
                         && is_cont c3 && is_cont c4 then
                        ((b1 - 240) * 262144 + (byte_of c2 - 128) * 4096
                         + (byte_of c3 - 128) * 64 + (byte_of c4 - 128))
                          :: utf8_decode r4
                      else b1 :: utf8_decode r1
                  | EmptyString => b1 :: utf8_decode r1
                  end
            | EmptyString => b1 :: utf8_decode r1
            end
      | EmptyString => [b1]
      end
  end.

(** The characters of a string, each with the bytes of its encoding. *)
Fixpoint str_chars (s : string) : list string :=
  match s with
  | EmptyString => []
  | String c rest =>
      match str_chars rest with
      | (String c2 _ as ch) :: tl =>
          if is_cont c2 then String c ch :: tl else String c "" :: ch :: tl
      | _ => [String c ""]
      end
  end.

(** The code points outside ASCII that [str.isprintable] rejects, as ranges
    in increasing order with both ends included: the code points of the
    categories Cc, Cf, Cs, Co, Cn, Zl, Zp and Zs in Unicode 14.0.0, the
    version of the character database of CPython 3.11. *)
Definition not_printable : list (Z * Z) :=
  [(128, 160); (173, 173); (888, 889); (896, 899); (907, 907); (909, 909);
   (930, 930); (1328, 1328); (1367, 1368); (1419, 1420); (1424, 1424);
   (1480, 1487); (1515, 1518); (1525, 1541); (1564, 1564); (1757, 1757);
   (1806, 1807); (1867, 1868); (1970, 1983); (2043, 2044); (2094, 2095);
   (2111, 2111); (2140, 2141); (2143, 2143); (2155, 2159); (2191, 2199);
   (2274, 2274); (2436, 2436); (2445, 2446); (2449, 2450); (2473, 2473);
   (2481, 2481); (2483, 2485); (2490, 2491); (2501, 2502); (2505, 2506);
   (2511, 2518); (2520, 2523); (2526, 2526); (2532, 2533); (2559, 2560);
   (2564, 2564); (2571, 2574); (2577, 2578); (2601, 2601); (2609, 2609);
   (2612, 2612); (2615, 2615); (2618, 2619); (2621, 2621); (2627, 2630);
   (2633, 2634); (2638, 2640); (2642, 2648); (2653, 2653); (2655, 2661);
   (2679, 2688); (2692, 2692); (2702, 2702); (2706, 2706); (2729, 2729);
   (2737, 2737); (2740, 2740); (2746, 2747); (2758, 2758); (2762, 2762);
   (2766, 2767); (2769, 2783); (2788, 2789); (2802, 2808); (2816, 2816);
   (2820, 2820); (2829, 2830); (2833, 2834); (2857, 2857); (2865, 2865);
   (2868, 2868); (2874, 2875); (2885, 2886); (2889, 2890); (2894, 2900);
   (2904, 2907); (2910, 2910); (2916, 2917); (2936, 2945); (2948, 2948);
   (2955, 2957); (2961, 2961); (2966, 2968); (2971, 2971); (2973, 2973);
   (2976, 2978); (2981, 2983); (2987, 2989); (3002, 3005); (3011, 3013);
   (3017, 3017); (3022, 3023); (3025, 3030); (3032, 3045); (3067, 3071);
   (3085, 3085); (3089, 3089); (3113, 3113); (3130, 3131); (3141, 3141);
   (3145, 3145); (3150, 3156); (3159, 3159); (3163, 3164); (3166, 3167);
   (3172, 3173); (3184, 3190); (3213, 3213); (3217, 3217); (3241, 3241);
   (3252, 3252); (3258, 3259); (3269, 3269); (3273, 3273); (3278, 3284);
   (3287, 3292); (3295, 3295); (3300, 3301); (3312, 3312); (3315, 3327);
   (3341, 3341); (3345, 3345); (3397, 3397); (3401, 3401); (3408, 3411);
   (3428, 3429); (3456, 3456); (3460, 3460); (3479, 3481); (3506, 3506);
   (3516, 3516); (3518, 3519); (3527, 3529); (3531, 3534); (3541, 3541);
   (3543, 3543); (3552, 3557); (3568, 3569); (3573, 3584); (3643, 3646);
   (3676, 3712); (3715, 3715); (3717, 3717); (3723, 3723); (3748, 3748);
   (3750, 3750); (3774, 3775); (3781, 3781); (3783, 3783); (3790, 3791);
   (3802, 3803); (3808, 3839); (3912, 3912); (3949, 3952); (3992, 3992);
   (4029, 4029); (4045, 4045); (4059, 4095); (4294, 4294); (4296, 4300);
   (4302, 4303); (4681, 4681); (4686, 4687); (4695, 4695); (4697, 4697);
   (4702, 4703); (4745, 4745); (4750, 4751); (4785, 4785); (4790, 4791);
   (4799, 4799); (4801, 4801); (4806, 4807); (4823, 4823); (4881, 4881);
   (4886, 4887); (4955, 4956); (4989, 4991); (5018, 5023); (5110, 5111);
   (5118, 5119); (5760, 5760); (5789, 5791); (5881, 5887); (5910, 5918);
   (5943, 5951); (5972, 5983); (5997, 5997); (6001, 6001); (6004, 6015);
   (6110, 6111); (6122, 6127); (6138, 6143); (6158, 6158); (6170, 6175);
   (6265, 6271); (6315, 6319); (6390, 6399); (6431, 6431); (6444, 6447);
   (6460, 6463); (6465, 6467); (6510, 6511); (6517, 6527); (6572, 6575);
   (6602, 6607); (6619, 6621); (6684, 6685); (6751, 6751); (6781, 6782);
   (6794, 6799); (6810, 6815); (6830, 6831); (6863, 6911); (6989, 6991);
   (7039, 7039); (7156, 7163); (7224, 7226); (7242, 7244); (7305, 7311);
   (7355, 7356); (7368, 7375); (7419, 7423); (7958, 7959); (7966, 7967);
   (8006, 8007); (8014, 8015); (8024, 8024); (8026, 8026); (8028, 8028);
   (8030, 8030); (8062, 8063); (8117, 8117); (8133, 8133); (8148, 8149);
   (8156, 8156); (8176, 8177); (8181, 8181); (8191, 8207); (8232, 8239);
   (8287, 8303); (8306, 8307); (8335, 8335); (8349, 8351); (8385, 8399);
   (8433, 8447); (8588, 8591); (9255, 9279); (9291, 9311); (11124, 11125);
   (11158, 11158); (11508, 11512); (11558, 11558); (11560, 11564);
   (11566, 11567); (11624, 11630); (11633, 11646); (11671, 11679);
   (11687, 11687); (11695, 11695); (11703, 11703); (11711, 11711);
   (11719, 11719); (11727, 11727); (11735, 11735); (11743, 11743);
   (11870, 11903); (11930, 11930); (12020, 12031); (12246, 12271);
   (12284, 12288); (12352, 12352); (12439, 12440); (12544, 12548);
   (12592, 12592); (12687, 12687); (12772, 12783); (12831, 12831);
   (42125, 42127); (42183, 42191); (42540, 42559); (42744, 42751);
   (42955, 42959); (42962, 42962); (42964, 42964); (42970, 42993);
   (43053, 43055); (43066, 43071); (43128, 43135); (43206, 43213);
   (43226, 43231); (43348, 43358); (43389, 43391); (43470, 43470);
   (43482, 43485); (43519, 43519); (43575, 43583); (43598, 43599);
   (43610, 43611); (43715, 43738); (43767, 43776); (43783, 43784);
   (43791, 43792); (43799, 43807); (43815, 43815); (43823, 43823);
   (43884, 43887); (44014, 44015); (44026, 44031); (55204, 55215);
   (55239, 55242); (55292, 63743); (64110, 64111); (64218, 64255);
   (64263, 64274); (64280, 64284); (64311, 64311); (64317, 64317);
   (64319, 64319); (64322, 64322); (64325, 64325); (64451, 64466);
   (64912, 64913); (64968, 64974); (64976, 65007); (65050, 65055);
   (65107, 65107); (65127, 65127); (65132, 65135); (65141, 65141);
   (65277, 65280); (65471, 65473); (65480, 65481); (65488, 65489);
   (65496, 65497); (65501, 65503); (65511, 65511); (65519, 65531);
   (65534, 65535); (65548, 65548); (65575, 65575); (65595, 65595);
   (65598, 65598); (65614, 65615); (65630, 65663); (65787, 65791);
   (65795, 65798); (65844, 65846); (65935, 65935); (65949, 65951);
   (65953, 65999); (66046, 66175); (66205, 66207); (66257, 66271);
   (66300, 66303); (66340, 66348); (66379, 66383); (66427, 66431);
   (66462, 66462); (66500, 66503); (66518, 66559); (66718, 66719);
   (66730, 66735); (66772, 66775); (66812, 66815); (66856, 66863);
   (66916, 66926); (66939, 66939); (66955, 66955); (66963, 66963);
   (66966, 66966); (66978, 66978); (66994, 66994); (67002, 67002);
   (67005, 67071); (67383, 67391); (67414, 67423); (67432, 67455);
   (67462, 67462); (67505, 67505); (67515, 67583); (67590, 67591);
   (67593, 67593); (67638, 67638); (67641, 67643); (67645, 67646);
   (67670, 67670); (67743, 67750); (67760, 67807); (67827, 67827);
   (67830, 67834); (67868, 67870); (67898, 67902); (67904, 67967);
   (68024, 68027); (68048, 68049); (68100, 68100); (68103, 68107);
   (68116, 68116); (68120, 68120); (68150, 68151); (68155, 68158);
   (68169, 68175); (68185, 68191); (68256, 68287); (68327, 68330);
   (68343, 68351); (68406, 68408); (68438, 68439); (68467, 68471);
   (68498, 68504); (68509, 68520); (68528, 68607); (68681, 68735);
   (68787, 68799); (68851, 68857); (68904, 68911); (68922, 69215);
   (69247, 69247); (69290, 69290); (69294, 69295); (69298, 69375);
   (69416, 69423); (69466, 69487); (69514, 69551); (69580, 69599);
   (69623, 69631); (69710, 69713); (69750, 69758); (69821, 69821);
   (69827, 69839); (69865, 69871); (69882, 69887); (69941, 69941);
   (69960, 69967); (70007, 70015); (70112, 70112); (70133, 70143);
   (70162, 70162); (70207, 70271); (70279, 70279); (70281, 70281);
   (70286, 70286); (70302, 70302); (70314, 70319); (70379, 70383);
   (70394, 70399); (70404, 70404); (70413, 70414); (70417, 70418);
   (70441, 70441); (70449, 70449); (70452, 70452); (70458, 70458);
   (70469, 70470); (70473, 70474); (70478, 70479); (70481, 70486);
   (70488, 70492); (70500, 70501); (70509, 70511); (70517, 70655);
   (70748, 70748); (70754, 70783); (70856, 70863); (70874, 71039);
   (71094, 71095); (71134, 71167); (71237, 71247); (71258, 71263);
   (71277, 71295); (71354, 71359); (71370, 71423); (71451, 71452);
   (71468, 71471); (71495, 71679); (71740, 71839); (71923, 71934);
   (71943, 71944); (71946, 71947); (71956, 71956); (71959, 71959);
   (71990, 71990); (71993, 71994); (72007, 72015); (72026, 72095);
   (72104, 72105); (72152, 72153); (72165, 72191); (72264, 72271);
   (72355, 72367); (72441, 72703); (72713, 72713); (72759, 72759);
   (72774, 72783); (72813, 72815); (72848, 72849); (72872, 72872);
   (72887, 72959); (72967, 72967); (72970, 72970); (73015, 73017);
   (73019, 73019); (73022, 73022); (73032, 73039); (73050, 73055);
   (73062, 73062); (73065, 73065); (73103, 73103); (73106, 73106);
   (73113, 73119); (73130, 73439); (73465, 73647); (73649, 73663);
   (73714, 73726); (74650, 74751); (74863, 74863); (74869, 74879);
   (75076, 77711); (77811, 77823); (78895, 82943); (83527, 92159);
   (92729, 92735); (92767, 92767); (92778, 92781); (92863, 92863);
   (92874, 92879); (92910, 92911); (92918, 92927); (92998, 93007);
   (93018, 93018); (93026, 93026); (93048, 93052); (93072, 93759);
   (93851, 93951); (94027, 94030); (94088, 94094); (94112, 94175);
   (94181, 94191); (94194, 94207); (100344, 100351); (101590, 101631);
   (101641, 110575); (110580, 110580); (110588, 110588); (110591, 110591);
   (110883, 110927); (110931, 110947); (110952, 110959); (111356, 113663);
   (113771, 113775); (113789, 113791); (113801, 113807); (113818, 113819);
   (113824, 118527); (118574, 118575); (118599, 118607); (118724, 118783);
   (119030, 119039); (119079, 119080); (119155, 119162); (119275, 119295);
   (119366, 119519); (119540, 119551); (119639, 119647); (119673, 119807);
   (119893, 119893); (119965, 119965); (119968, 119969); (119971, 119972);
   (119975, 119976); (119981, 119981); (119994, 119994); (119996, 119996);
   (120004, 120004); (120070, 120070); (120075, 120076); (120085, 120085);
   (120093, 120093); (120122, 120122); (120127, 120127); (120133, 120133);
   (120135, 120137); (120145, 120145); (120486, 120487); (120780, 120781);
   (121484, 121498); (121504, 121504); (121520, 122623); (122655, 122879);
   (122887, 122887); (122905, 122906); (122914, 122914); (122917, 122917);
   (122923, 123135); (123181, 123183); (123198, 123199); (123210, 123213);
   (123216, 123535); (123567, 123583); (123642, 123646); (123648, 124895);
   (124903, 124903); (124908, 124908); (124911, 124911); (124927, 124927);
   (125125, 125126); (125143, 125183); (125260, 125263); (125274, 125277);
   (125280, 126064); (126133, 126208); (126270, 126463); (126468, 126468);
   (126496, 126496); (126499, 126499); (126501, 126502); (126504, 126504);
   (126515, 126515); (126520, 126520); (126522, 126522); (126524, 126529);
   (126531, 126534); (126536, 126536); (126538, 126538); (126540, 126540);
   (126544, 126544); (126547, 126547); (126549, 126550); (126552, 126552);
   (126554, 126554); (126556, 126556); (126558, 126558); (126560, 126560);
   (126563, 126563); (126565, 126566); (126571, 126571); (126579, 126579);
   (126584, 126584); (126589, 126589); (126591, 126591); (126602, 126602);
   (126620, 126624); (126628, 126628); (126634, 126634); (126652, 126703);
   (126706, 126975); (127020, 127023); (127124, 127135); (127151, 127152);
   (127168, 127168); (127184, 127184); (127222, 127231); (127406, 127461);
   (127491, 127503); (127548, 127551); (127561, 127567); (127570, 127583);
   (127590, 127743); (128728, 128732); (128749, 128751); (128765, 128767);
   (128884, 128895); (128985, 128991); (129004, 129007); (129009, 129023);
   (129036, 129039); (129096, 129103); (129114, 129119); (129160, 129167);
   (129198, 129199); (129202, 129279); (129620, 129631); (129646, 129647);
   (129653, 129655); (129661, 129663); (129671, 129679); (129709, 129711);
   (129723, 129727); (129734, 129743); (129754, 129759); (129768, 129775);
   (129783, 129791); (129939, 129939); (129995, 130031); (130042, 131071);
   (173792, 173823); (177977, 177983); (178206, 178207); (183970, 183983);
   (191457, 194559); (195102, 196607); (201547, 917759); (918000, 1114111)].

(** Whether [n] lies in one of the [ranges], which are in increasing
    order. *)
Fixpoint in_ranges (n : Z) (ranges : list (Z * Z)) : bool :=
  match ranges with
  | [] => false
  | (lo, hi) :: rest =>
      if n <? lo then false
      else if n <=? hi then true
      else in_ranges n rest
  end.

(** [chr(n).isprintable()]. *)
Definition is_printable (n : Z) : bool :=
  if n <? 128 then (32 <=? n) && (n <? 127)
  else negb (in_ranges n not_printable).

(** ** Python values *)

Inductive pyval : Type :=
| PNone
| PBool (b : bool)
| PInt (n : Z)
| PFloat (x : spec_float)
| PStr (s : string)
| PList (l : list pyval)
| PDict (d : list (string * pyval)).

Definition type_name (v : pyval) : string :=
  match v with
  | PNone => "NoneType"
  | PBool _ => "bool"
  | PInt _ => "int"
  | PFloat _ => "float"
  | PStr _ => "str"
  | PList _ => "list"
  | PDict _ => "dict"
  end.

(** A dict keeps its items in insertion order. *)
Fixpoint lookup (key : string) (d : list (string * pyval)) : option pyval :=
  match d with
  | [] => None
  | (k, v) :: rest => if String.eqb k key then Some v else lookup key rest
  end.

(** [bool(v)]. *)
Definition py_truthy (v : pyval) : bool :=
  match v with
  | PNone => false
  | PBool b => b
  | PInt n => negb (n =? 0)
  | PFloat x => negb (B64.is_zero x)
  | PStr s => negb (String.eqb s "")
  | PList l => match l with [] => false | _ => true end
  | PDict d => match d with [] => false | _ => true end
  end.

(** [a or b]. *)
Definition py_or (a b : pyval) : pyval := if py_truthy a then a else b.

(** ** [repr], [str] and the JSON encoder *)

Definition repr_char (q : ascii) (c : ascii) : string :=
  let b := byte_of c in
  if Ascii.eqb c "\" then "\\"
  else if Ascii.eqb c q then String "\" (String q "")
  else if b =? 10 then "\n"
  else if b =? 13 then "\r"
  else if b =? 9 then "\t"
  else if (b <? 32) || (b =? 127) then "\x" ++ hex2 b
  else String c "".

Fixpoint concat_map (f : ascii -> string) (s : string) : string :=
  match s with
  | EmptyString => ""
  | String c rest => f c ++ concat_map f rest
  end.

(** One character of [repr(s)], given with the bytes of its encoding: an
    ASCII character as [repr_char] has it; a character outside ASCII as it
    is when it is printable, and as the escape of its code point when it is
    not: [\xNN] below 256, [\uNNNN] below 65536, [\UNNNNNNNN] from there. *)
Definition repr_code_point (q : ascii) (ch : string) : string :=
  match ch with
  | String c EmptyString => repr_char q c
  | _ =>
      match utf8_decode ch with
      | [n] =>
          if is_printable n then ch
          else if n <? 256 then "\x" ++ hex2 n
          else if n <? 65536 then "\u" ++ hex4 n
          else "\U" ++ hex8 n
      | _ => ch
      end
  end.

(** [repr(s)] for a [str]: double quotes when the text holds a single quote
    and no double quote, single quotes otherwise; the characters that are
    not printable are escaped. *)
Definition str_repr (s : string) : string :=
  let q : ascii :=
    if contains "'" s && negb (contains (String dquote "") s)
    then dquote else "'"%char in
  String q
    (String.concat "" (map (repr_code_point q) (str_chars s)) ++ String q "").

Fixpoint py_repr (v : pyval) : string :=
  match v with
  | PNone => "None"
  | PBool b => if b then "True" else "False"
  | PInt n => string_of_Z n
  | PFloat x => FloatRepr.float_repr x
  | PStr s => str_repr s
  | PList l =>
      "[" ++ (fix items (l : list pyval) : string :=
                match l with
                | [] => ""
                | x :: rest =>
                    match rest with
                    | [] => py_repr x
                    | _ => py_repr x ++ ", " ++ items rest
                    end
                end) l ++ "]"
  | PDict d =>
      "{" ++ (fix items (d : list (string * pyval)) : string :=
                match d with
                | [] => ""
                | (k, x) :: rest =>
                    match rest with
                    | [] => str_repr k ++ ": " ++ py_repr x
                    | _ => str_repr k ++ ": " ++ py_repr x ++ ", " ++ items rest
                    end
                end) d ++ "}"
  end.

(** [str(v)], which is also what an f-string puts for [{v}]. *)
Definition py_str (v : pyval) : string :=
  match v with
  | PStr s => s
  | _ => py_repr v
  end.

Module Json.

Definition short_escape (b : Z) : option string :=
  if b =? 34 then Some (String "\" (String dquote ""))
  else if b =? 92 then Some "\\"
  else if b =? 10 then Some "\n"
  else if b =? 13 then Some "\r"
  else if b =? 9 then Some "\t"
  else if b =? 8 then Some "\b"
  else if b =? 12 then Some "\f"
  else None.

(** One byte, when [ensure_ascii] is false. *)
Definition escape_byte (c : ascii) : string :=
  let b := byte_of c in
  match short_escape b with
  | Some e => e
  | None => if b <? 32 then "\u" ++ hex4 b else String c ""
  end.

(** One code point, when [ensure_ascii] is true. *)
Definition escape_code_point (n : Z) : string :=
  match short_escape n with
  | Some e => e
  | None =>
      if (32 <=? n) && (n <=? 126) then String (char_of n) ""
      else if n <? 65536 then "\u" ++ hex4 n
      else
        let v := n - 65536 in
        "\u" ++ hex4 (55296 + (v / 1024) mod 1024)
        ++ "\u" ++ hex4 (56320 + v mod 1024)
  end.

Definition quote (ensure_ascii : bool) (s : string) : string :=
  String dquote
    ((if ensure_ascii
      then String.concat "" (map escape_code_point (utf8_decode s))
      else concat_map escape_byte s)
     ++ String dquote "").

Definition float_text (x : spec_float) : string :=
  match x with
  | S754_nan => "NaN"
  | S754_infinity s => if s then "-Infinity" else "Infinity"
  | _ => FloatRepr.finite_repr x
  end.

(** [json.dumps(v, ensure_ascii=...)], with the default separators. *)
Fixpoint dumps (ensure_ascii : bool) (v : pyval) : string :=
  match v with
  | PNone => "null"
  | PBool b => if b then "true" else "false"
  | PInt n => string_of_Z n
  | PFloat x => float_text x
  | PStr s => quote ensure_ascii s
  | PList l =>
      "[" ++ (fix items (l : list pyval) : string :=
                match l with
                | [] => ""
                | x :: rest =>
                    match rest with
                    | [] => dumps ensure_ascii x
                    | _ => dumps ensure_ascii x ++ ", " ++ items rest
                    end
                end) l ++ "]"
  | PDict d =>
      "{" ++ (fix items (d : list (string * pyval)) : string :=
                match d with
                | [] => ""
                | (k, x) :: rest =>
                    match rest with
                    | [] => quote ensure_ascii k ++ ": " ++ dumps ensure_ascii x
                    | _ => quote ensure_ascii k ++ ": " ++ dumps ensure_ascii x
                           ++ ", " ++ items rest
                    end
                end) d ++ "}"
  end.

End Json.



(** ** Operations of the language on values *)

Definition Z_of_bool (b : bool) : Z := if b then 1 else 0.

(** The conversion of an [int] operand of a float operation. *)
Definition float_of_int (n : Z) : res spec_float :=
  let x := B64.of_Z n in
  if B64.is_infinity x
  then raise OverflowError "int too large to convert to float"
  else Ok x.

Definition unsupported (op : string) (l r : string) : string :=
  "unsupported operand type(s) for " ++ op ++ ": '" ++ l ++ "' and '" ++ r ++ "'".

Definition not_supported (op : string) (l r : string) : string :=
  "'" ++ op ++ "' not supported between instances of '" ++ l ++ "' and '" ++ r ++ "'".

Definition not_subscriptable (v : pyval) : string :=
  "'" ++ type_name v ++ "' object is not subscriptable".

Definition no_attribute (v : pyval) (attr : string) : string :=
  "'" ++ type_name v ++ "' object has no attribute '" ++ attr ++ "'".

(** [v * c], for a float [c]. *)
Definition py_mul_float (v : pyval) (c : spec_float) : res spec_float :=
  match v with
  | PInt n => x <- float_of_int n ;; Ok (B64.mul x c)
  | PBool b => x <- float_of_int (Z_of_bool b) ;; Ok (B64.mul x c)
  | PFloat x => Ok (B64.mul x c)
  | PStr _ | PList _ =>
      raise TypeError "can't multiply sequence by non-int of type 'float'"
  | _ => raise TypeError (unsupported "*" (type_name v) "float")
  end.

(** [v <= x], for a float [x]. *)
Definition py_le_float (v : pyval) (x : spec_float) : res bool :=
  match v with
  | PInt n => Ok (B64.Zleb n x)
  | PBool b => Ok (B64.Zleb (Z_of_bool b) x)
  | PFloat y => Ok (B64.leb y x)
  | _ => raise TypeError (not_supported "<=" (type_name v) "float")
  end.

(** [k <= v], for an int [k]. *)
Definition py_int_le (k : Z) (v : pyval) : res bool :=
  match v with
  | PInt n => Ok (k <=? n)
  | PBool b => Ok (k <=? Z_of_bool b)
  | PFloat x => Ok (B64.Zleb k x)
  | _ => raise TypeError (not_supported "<=" "int" (type_name v))
  end.

(** [v >= k], for an int [k]. *)
Definition py_ge_int (v : pyval) (k : Z) : res bool :=
  match v with
  | PInt n => Ok (k <=? n)
  | PBool b => Ok (k <=? Z_of_bool b)
  | PFloat x => Ok (B64.Zleb k x)
  | _ => raise TypeError (not_supported ">=" (type_name v) "int")
  end.

(** [v / k], for a positive int [k]. *)
Definition py_truediv_int (v : pyval) (k : positive) : res spec_float :=
  let int_case (n : Z) :=
    let x := B64.of_ratio n k in
    if B64.is_infinity x
    then raise OverflowError "integer division result too large for a float"
    else Ok x in
  match v with
  | PInt n => int_case n
  | PBool b => int_case (Z_of_bool b)
  | PFloat x => Ok (B64.div x (B64.of_Z (Zpos k)))
  | _ => raise TypeError (unsupported "/" (type_name v) "int")
  end.

(** [x // y] for two floats, [y] not zero: the quotient of [divmod], which
    the interpreter computes from [fmod]. *)
Definition float_floordiv (vx wx : spec_float) : spec_float :=
  let zero := S754_zero false in
  let one := B64.of_Z 1 in
  let md := B64.fmod vx wx in
  let div0 := B64.div (B64.sub vx md) wx in
  let adjust :=
    negb (B64.is_zero md) && xorb (B64.ltb wx zero) (B64.ltb md zero) in
  let dv := if adjust then B64.sub div0 one else div0 in
  if B64.is_zero dv then S754_zero (B64.sign_bit (B64.div vx wx))
  else
    let fl := B64.floor dv in
    if B64.ltb f_0_5 (B64.sub dv fl) then B64.add fl one else fl.

(** [v // k], for a positive int [k]. *)
Definition py_floordiv_int (v : pyval) (k : positive) : res pyval :=
  match v with
  | PInt n => Ok (PInt (n / Zpos k))
  | PBool b => Ok (PInt (Z_of_bool b / Zpos k))
  | PFloat x => Ok (PFloat (float_floordiv x (B64.of_Z (Zpos k))))
  | _ => raise TypeError (unsupported "//" (type_name v) "int")
  end.

(** [int(x)] for a float. *)
Definition py_int_of_float (x : spec_float) : res Z :=
  match x with
  | S754_nan => raise ValueError "cannot convert float NaN to integer"
  | S754_infinity _ =>
      raise OverflowError "cannot convert float infinity to integer"
  | S754_zero _ => Ok 0
  | S754_finite s m e => Ok (if s then - B64.trunc m e else B64.trunc m e)
  end.

(** [round(x, 1)] for a float: the float nearest to the decimal with one
    digit after the point that is nearest to [x] (ties to even). *)
Definition py_round1 (x : spec_float) : spec_float :=
  match x with
  | S754_finite s m e =>
      if 0 <=? e then x
      else
        let N := Zpos m * 10 in
        let D := 2 ^ (- e) in
        let q := N / D in
        let r := N mod D in
        let n :=
          match 2 * r ?= D with
          | Lt => q
          | Gt => q + 1
          | Eq => if Z.even q then q else q + 1
          end in
        if n =? 0 then S754_zero s
        else B64.of_ratio (if s then - n else n) 10
  | _ => x
  end.

(** [v[key]] for a string [key]. *)
Definition py_getitem_str (v : pyval) (key : string) : res pyval :=
  match v with
  | PDict d =>
      match lookup key d with
      | Some x => Ok x
      | None => raise KeyError (str_repr key)
      end
  | PList _ => raise TypeError "list indices must be integers or slices, not str"
  | PStr _ => raise TypeError "string indices must be integers, not 'str'"
  | _ => raise TypeError (not_subscriptable v)
  end.

(** [v[0]].  The keys of a dict of decoded JSON are strings, so [0] is none
    of them. *)
Definition py_getitem_0 (v : pyval) : res pyval :=
  match v with
  | PList l =>
      match l with
      | x :: _ => Ok x
      | [] => raise IndexError "list index out of range"
      end
  | PDict _ => raise KeyError "0"
  | PStr s =>
      match str_chars s with
      | c :: _ => Ok (PStr c)
      | [] => raise IndexError "string index out of range"
      end
  | _ => raise TypeError (not_subscriptable v)
  end.

(** [p.get(key, default)]. *)
Definition py_get (p : pyval) (key : string) (default : pyval) : res pyval :=
  match p with
  | PDict d =>
      Ok (match lookup key d with
          | Some x => x
          | None => default
          end)
  | _ => raise AttributeError (no_attribute p "get")
  end.

(** [l[:n]] for an int [n]: a negative [n] counts from the end. *)
Definition slice_to {A : Type} (l : list A) (n : Z) : list A :=
  if 0 <=? n then firstn (Z.to_nat n) l
  else firstn (Z.to_nat (Z.of_nat (List.length l) + n)) l.

(** The bound of a slice: [None] leaves the end open. *)
Definition slice_bound (limit : pyval) : res (option Z) :=
  match limit with
  | PNone => Ok None
  | PInt n => Ok (Some n)
  | PBool b => Ok (Some (Z_of_bool b))
  | _ =>
      raise TypeError
        "slice indices must be integers or None or have an __index__ method"
  end.

Definition slice_opt {A : Type} (l : list A) (bound : option Z) : list A :=
  match bound with
  | None => l
  | Some n => slice_to l n
  end.

(** The items a loop over [v[:limit]] visits.  A dict cannot be sliced: the
    slice is not hashable. *)
Definition py_slice_to (v limit : pyval) : res (list pyval) :=
  match v with
  | PList l => b <- slice_bound limit ;; Ok (slice_opt l b)
  | PStr s => b <- slice_bound limit ;; Ok (map PStr (slice_opt (str_chars s) b))
  | PDict _ => raise TypeError "unhashable type: 'slice'"
  | _ => raise TypeError (not_subscriptable v)
  end.

(** The integer a value is equal to when it is used as the key of a dict
    whose keys are ints; a list or a dict is not hashable. *)
Definition int_key (v : pyval) : res (option Z) :=
  match v with
  | PInt n => Ok (Some n)
  | PBool b => Ok (Some (Z_of_bool b))
  | PFloat x => Ok (B64.to_Z_exact x)
  | PNone | PStr _ => Ok None
  | PList _ | PDict _ =>
      raise TypeError ("unhashable type: '" ++ type_name v ++ "'")
  end.

Fixpoint lookup_int (key : Z) (m : list (Z * Z)) : option Z :=
  match m with
  | [] => None
  | (k, v) :: rest => if k =? key then Some v else lookup_int key rest
  end.

(** [m.get(key, default)] for a dict [m] from ints to ints. *)
Definition int_dict_get (m : list (Z * Z)) (key : pyval) (default : Z)
  : res Z :=
  k <- int_key key ;;
  Ok (match k with
      | Some n =>
          match lookup_int n m with
          | Some v => v
          | None => default
          end
      | None => default
      end).

(** [s.lower()] as a method call on a value. *)
Definition py_lower_method (v : pyval) : res string :=
  match v with
  | PStr s => Ok (py_lower s)
  | _ => raise AttributeError (no_attribute v "lower")
  end.

(** A list comprehension with a condition that may raise. *)
Fixpoint filter_res {A : Type} (f : A -> res bool) (l : list A)
  : res (list A) :=
  match l with
  | [] => Ok []
  | x :: rest =>
      b <- f x ;;
      tl <- filter_res f rest ;;
      Ok (if b then x :: tl else tl)
  end.

(** [try: body except classes: handler]. *)
Definition try_except {A : Type} (body : res A) (classes : exn_class -> bool)
  (handler : exn -> res A) : res A :=
  match body with
  | Ok a => Ok a
  | Raise e => if classes (exn_cls e) then handler e else Raise e
  end.

(** ** The program: [tools.py] *)

(** What the process reads from outside: the two keys of its environment,
    and, for a GET of a URL with its parameters, either the decoded JSON of
    the response or the exception the client or the decoder raises. *)
Record world : Type := World {
  GOOGLE_API_KEY : string;
  SERPAPI_KEY : string;
  http_get_json : string -> list (string * string) -> res pyval
}.

Definition PLACES_BASE : string := "https://places.googleapis.com/v1/places".
Definition MAPS_BASE : string :=
  "https://maps.googleapis.com/maps/api/distancematrix".
Definition SERPAPI_BASE : string := "https://serpapi.com/search".

(** [not key] for a key string. *)
Definition no_key (key : string) : bool := negb (py_truthy (PStr key)).

Definition f_4_0 : spec_float := Eval vm_compute in B64.literal 40 1.
Definition f_4_1 : spec_float := Eval vm_compute in B64.literal 41 1.
Definition f_4_2 : spec_float := Eval vm_compute in B64.literal 42 1.
Definition f_4_3 : spec_float := Eval vm_compute in B64.literal 43 1.
Definition f_4_4 : spec_float := Eval vm_compute in B64.literal 44 1.
Definition f_4_5 : spec_float := Eval vm_compute in B64.literal 45 1.
Definition f_4_6 : spec_float := Eval vm_compute in B64.literal 46 1.
Definition f_8_0 : spec_float := Eval vm_compute in B64.literal 80 1.

(** *** 1. Restaurants *)

Definition restaurant (name address : string) (rating : spec_float)
  (estimated_cost : Z) (maps_url : string) : pyval :=
  PDict [("name", PStr name); ("address", PStr address);
         ("rating", PFloat rating); ("estimated_cost", PInt estimated_cost);
         ("maps_url", PStr maps_url)].

Definition all_restaurants : list pyval :=
  [ restaurant "Paradise Biryani" "MG Road, Secunderabad" f_4_4 320
      "https://maps.google.com/?q=Paradise+Biryani+Hyderabad";
    restaurant "Bawarchi Restaurant" "RTC X Roads, Hyderabad" f_4_3 280
      "https://maps.google.com/?q=Bawarchi+Hyderabad";
    restaurant "Rayalaseema Ruchulu" "Banjara Hills, Hyderabad" f_4_2 350
      "https://maps.google.com/?q=Rayalaseema+Ruchulu+Hyderabad";
    restaurant "AB's – Absolute Barbecues" "Jubilee Hills, Hyderabad" f_4_5 700
      "https://maps.google.com/?q=AB%27s+Absolute+Barbecues+Hyderabad";
    restaurant "Ohri's Jiva Imperia" "Basheer Bagh, Hyderabad" f_4_1 600
      "https://maps.google.com/?q=Ohri%27s+Hyderabad";
    restaurant "Shah Ghouse Cafe" "Tolichowki, Hyderabad" f_4_5 200
      "https://maps.google.com/?q=Shah+Ghouse+Hyderabad";
    restaurant "Chutneys" "Banjara Hills, Hyderabad" f_4_3 250
      "https://maps.google.com/?q=Chutneys+Hyderabad" ].

Definition _mock_restaurants (area budget : pyval) : res pyval :=
  kept <- filter_res
            (fun r =>
               c <- py_getitem_str r "estimated_cost" ;;
               half <- py_mul_float budget f_0_5 ;;
               py_le_float c half)
            all_restaurants ;;
  Ok (PList (firstn 4 kept)).

Definition cost_map : list (Z * Z) := [(1, 150); (2, 350); (3, 600); (4, 1200)].

(** The body of the loop of [search_restaurants], over the places [ps] still
    to visit, with [results] as built so far. *)
Fixpoint restaurants_loop (area max_budget_per_person : pyval)
  (ps : list pyval) (results : list pyval) : res (list pyval) :=
  match ps with
  | [] => Ok results
  | p :: ps' =>
      price_level <- py_get p "price_level" (PInt 2) ;;
      est_cost <- int_dict_get cost_map price_level 350 ;;
      threshold <- py_mul_float max_budget_per_person f_0_45 ;;
      if B64.Zgtb est_cost threshold then
        restaurants_loop area max_budget_per_person ps' results
      else
        name <- py_get p "name" PNone ;;
        address <- py_get p "formatted_address" area ;;
        rating <- py_get p "rating" (PFloat f_4_0) ;;
        place_id <- py_get p "place_id" PNone ;;
        restaurants_loop area max_budget_per_person ps'
          (results ++
           [PDict [("name", name); ("address", address); ("rating", rating);
                   ("price_level", price_level);
                   ("estimated_cost", PInt est_cost);
                   ("maps_url",
                    PStr ("https://www.google.com/maps/place/?q=place_id:"
                          ++ py_str place_id));
                   ("place_id", place_id)]])%list
  end.

Definition search_restaurants (w : world)
  (area max_budget_per_person cuisine limit : pyval) : res pyval :=
  if no_key (GOOGLE_API_KEY w) then _mock_restaurants area max_budget_per_person
  else
    let query :=
      py_str cuisine ++ " restaurant in " ++ py_str area ++ " Hyderabad" in
    data <- http_get_json w (PLACES_BASE ++ "/textsearch/json")
              [("query", query); ("key", GOOGLE_API_KEY w);
               ("type", "restaurant")] ;;
    found <- py_get data "results" (PList []) ;;
    ps <- py_slice_to found limit ;;
    results <- restaurants_loop area max_budget_per_person ps [] ;;
    if py_truthy (PList results) then Ok (PList results)
    else _mock_restaurants area max_budget_per_person.

(** *** 2. Movies *)

Definition _estimate_ticket_price (max_price : pyval) : res Z :=
  premium <- py_ge_int max_price 400 ;;
  if premium then Ok 350
  else
    standard <- py_ge_int max_price 250 ;;
    if standard then Ok 220 else Ok 150.

Definition movie (title theatre genre rating : string) (ticket_price : Z)
  (duration : string) : pyval :=
  PDict [("title", PStr title); ("theatre", PStr theatre);
         ("genre", PStr genre); ("rating", PStr rating);
         ("ticket_price", PInt ticket_price); ("duration", PStr duration);
         ("bookmyshow_url", PStr "https://in.bookmyshow.com/movies/hyderabad")].

Definition movies : list pyval :=
  [ movie "Check BookMyShow for Latest Shows" "AMB Cinemas, Gachibowli"
      "Action" "8.1/10" 300 "2h 25m";
    movie "PVR Inorbit – Current Blockbuster" "PVR Inorbit Mall, HITEC City"
      "Thriller" "7.8/10" 350 "2h 10m";
    movie "INOX GVK One – Matinee Show" "INOX GVK One, Banjara Hills"
      "Comedy" "7.2/10" 200 "1h 55m" ].

(** [a <= b] where [a] is an int held by a record of the program. *)
Definition py_le (a b : pyval) : res bool :=
  match a with
  | PInt n => py_int_le n b
  | _ => raise TypeError (not_supported "<=" (type_name a) (type_name b))
  end.

Definition _mock_movies (genre budget : pyval) : res pyval :=
  kept <- filter_res
            (fun m => t <- py_getitem_str m "ticket_price" ;; py_le t budget)
            movies ;;
  Ok (PList (firstn 3 kept)).

Fixpoint movies_loop (preferred_genre max_ticket_price : pyval)
  (ms : list pyval) (results : list pyval) : res (list pyval) :=
  match ms with
  | [] => Ok results
  | m :: ms' =>
      title <- py_get m "name" (PStr "Unknown") ;;
      rating <- py_get m "rating" (PStr "7.5/10") ;;
      ticket_price <- _estimate_ticket_price max_ticket_price ;;
      duration <- py_get m "duration" (PStr "2h 30m") ;;
      movies_loop preferred_genre max_ticket_price ms'
        (results ++
         [PDict [("title", title);
                 ("theatre", PStr "PVR / INOX / AMB Cinemas");
                 ("genre", py_or preferred_genre (PStr "Drama"));
                 ("rating", rating);
                 ("ticket_price", PInt ticket_price);
                 ("duration", duration);
                 ("bookmyshow_url", PStr "https://in.bookmyshow.com")]])%list
  end.

Definition search_movies (w : world)
  (preferred_genre max_ticket_price limit : pyval) : res pyval :=
  if no_key (SERPAPI_KEY w) then _mock_movies preferred_genre max_ticket_price
  else
    data <- http_get_json w SERPAPI_BASE
              [("engine", "google");
               ("q", "movies showing today in Hyderabad cinemas "
                     ++ py_str preferred_genre);
               ("api_key", SERPAPI_KEY w);
               ("hl", "en"); ("gl", "in");
               ("location", "Hyderabad, Telangana, India")] ;;
    found <- py_get data "showtimes" (PList []) ;;
    ms <- py_slice_to found limit ;;
    results <- movies_loop preferred_genre max_ticket_price ms [] ;;
    if py_truthy (PList results) then Ok (PList results)
    else _mock_movies preferred_genre max_ticket_price.

(** *** 3. Places *)

Definition fee_map : list (string * Z) :=
  [("golconda", 35); ("charminar", 25); ("ramoji", 1150);
   ("birla", 0); ("hussain sagar", 0); ("lumbini", 50);
   ("nehru zoo", 80); ("salar jung", 20); ("qutb shahi", 15);
   ("snow world", 799); ("wonderla", 999)].

(** The loop of [_estimate_entry_fee] over the items of the table. *)
Fixpoint fee_lookup (name_lower : string) (items : list (string * Z))
  : option Z :=
  match items with
  | [] => None
  | (k, v) :: rest =>
      if contains k name_lower then Some v else fee_lookup name_lower rest
  end.

Definition _estimate_entry_fee (name : pyval) : res Z :=
  name_lower <- py_lower_method name ;;
  Ok (match fee_lookup name_lower fee_map with
      | Some v => v
      | None => 50
      end).

Definition place (name address : string) (rating : spec_float)
  (entry_fee visit_duration_mins : Z) (maps_url : string) : pyval :=
  PDict [("name", PStr name); ("address", PStr address);
         ("rating", PFloat rating); ("entry_fee", PInt entry_fee);
         ("visit_duration_mins", PInt visit_duration_mins);
         ("maps_url", PStr maps_url)].

Definition all_places : list pyval :=
  [ place "Hussain Sagar Lake & Tank Bund" "Tank Bund Road, Hyderabad"
      f_4_3 0 60 "https://maps.google.com/?q=Hussain+Sagar+Lake";
    place "Golconda Fort" "Ibrahim Bagh, Hyderabad"
      f_4_4 35 90 "https://maps.google.com/?q=Golconda+Fort";
    place "Charminar" "Charminar, Old City, Hyderabad"
      f_4_5 25 60 "https://maps.google.com/?q=Charminar+Hyderabad";
    place "Lumbini Park" "Secretariat Road, Hyderabad"
      f_4_1 50 60 "https://maps.google.com/?q=Lumbini+Park+Hyderabad";
    place "Birla Mandir" "Naubath Pahad, Hyderabad"
      f_4_6 0 45 "https://maps.google.com/?q=Birla+Mandir+Hyderabad";
    place "Inorbit Mall" "HITEC City, Hyderabad"
      f_4_3 0 120 "https://maps.google.com/?q=Inorbit+Mall+Hyderabad" ].

Definition _mock_places (interests budget : pyval) : res pyval :=
  kept <- filter_res
            (fun p =>
               fee <- py_getitem_str p "entry_fee" ;;
               share <- py_mul_float budget f_0_15 ;;
               py_le_float fee share)
            all_places ;;
  Ok (PList (firstn 4 kept)).

Fixpoint places_loop (area : pyval) (ps : list pyval) (results : list pyval)
  : res (list pyval) :=
  match ps with
  | [] => Ok results
  | p :: ps' =>
      name <- py_get p "name" PNone ;;
      address <- py_get p "formatted_address" area ;;
      rating <- py_get p "rating" (PFloat f_4_0) ;;
      fee_name <- py_get p "name" (PStr "") ;;
      entry_fee <- _estimate_entry_fee fee_name ;;
      place_id <- py_get p "place_id" PNone ;;
      places_loop area ps'
        (results ++
         [PDict [("name", name); ("address", address); ("rating", rating);
                 ("entry_fee", PInt entry_fee);
                 ("maps_url",
                  PStr ("https://www.google.com/maps/place/?q=place_id:"
                        ++ py_str place_id));
                 ("visit_duration_mins", PInt 60)]])%list
  end.

Definition search_places (w : world)
  (interests max_entry_fee area limit : pyval) : res pyval :=
  if no_key (GOOGLE_API_KEY w) then _mock_places interests max_entry_fee
  else
    let query :=
      py_str interests ++ " attractions in " ++ py_str area ++ " Hyderabad" in
    data <- http_get_json w (PLACES_BASE ++ "/textsearch/json")
              [("query", query); ("key", GOOGLE_API_KEY w);
               ("type", "tourist_attraction")] ;;
    found <- py_get data "results" (PList []) ;;
    ps <- py_slice_to found limit ;;
    results <- places_loop area ps [] ;;
    if py_truthy (PList results) then Ok (PList results)
    else _mock_places interests max_entry_fee.

(** *** 4. Travel *)

Definition _estimate_cab_fare (km : spec_float) : res Z :=
  py_int_of_float (B64.add (B64.of_Z 50) (B64.mul km (B64.of_Z 12))).

Definition _mock_travel (origin destination : pyval) : pyval :=
  PDict [("distance_km", PFloat f_8_0); ("duration_mins", PInt 20);
         ("cab_fare_inr", PInt 130); ("mode", PStr "Uber/Ola")].

(** The block under [try] in [get_travel_info]. *)
Definition travel_from_response (data : pyval) : res pyval :=
  rows <- py_getitem_str data "rows" ;;
  row <- py_getitem_0 rows ;;
  elements <- py_getitem_str row "elements" ;;
  element <- py_getitem_0 elements ;;
  distance <- py_getitem_str element "distance" ;;
  distance_value <- py_getitem_str distance "value" ;;
  distance_km <- py_truediv_int distance_value 1000 ;;
  duration <- py_getitem_str element "duration" ;;
  duration_value <- py_getitem_str duration "value" ;;
  duration_min <- py_floordiv_int duration_value 60 ;;
  fare <- _estimate_cab_fare distance_km ;;
  Ok (PDict [("distance_km", PFloat (py_round1 distance_km));
             ("duration_mins", duration_min);
             ("cab_fare_inr", PInt fare);
             ("mode", PStr "Uber/Ola")]).

Definition key_or_index_error (c : exn_class) : bool :=
  match c with
  | KeyError | IndexError => true
  | _ => false
  end.

Definition get_travel_info (w : world) (origin destination : pyval)
  : res pyval :=
  if no_key (GOOGLE_API_KEY w) then Ok (_mock_travel origin destination)
  else
    data <- http_get_json w (MAPS_BASE ++ "/json")
              [("origins", py_str origin ++ ", Hyderabad");
               ("destinations", py_str destination ++ ", Hyderabad");
               ("key", GOOGLE_API_KEY w);
               ("mode", "driving"); ("units", "metric")] ;;
    try_except (travel_from_response data) key_or_index_error
      (fun _ => Ok (_mock_travel origin destination)).

(** *** The tool definitions *)




(** *** The tool executor *)

(** The parameters of a function: the name of each and its default, if it
    has one. *)
Definition signature : Type := list (string * option pyval).

Fixpoint first_unexpected (sig : signature) (kwargs : list (string * pyval))
  : option string :=
  match kwargs with
  | [] => None
  | (k, _) :: rest =>
      if existsb (fun p => String.eqb (fst p) k) sig
      then first_unexpected sig rest
      else Some k
  end.

Fixpoint missing_required (sig : signature) (kwargs : list (string * pyval))
  : list string :=
  match sig with
  | [] => []
  | (name, default) :: rest =>
      match default, lookup name kwargs with
      | None, None => name :: missing_required rest kwargs
      | _, _ => missing_required rest kwargs
      end
  end.

Definition single_quoted (s : string) : string := "'" ++ s ++ "'".

(** The names of the missing arguments, as the interpreter lists them. *)
Definition name_list (names : list string) : string :=
  match names with
  | [] => ""
  | [a] => single_quoted a
  | [a; b] => single_quoted a ++ " and " ++ single_quoted b
  | a :: rest => single_quoted a ++ ", " ++
      (fix tail (l : list string) : string :=
         match l with
         | [] => ""
         | [z] => "and " ++ single_quoted z
         | y :: l' => single_quoted y ++ ", " ++ tail l'
         end) rest
  end.

(** A call of [f] with the items of [kwargs] as keyword arguments: the
    value each parameter of [f] is bound to, or the [TypeError] of the call.  A keyword that names no parameter is reported
    before a missing argument is. *)
Definition bind_kwargs (fname : string) (sig : signature)
  (kwargs : list (string * pyval)) : res (string -> pyval) :=
  match first_unexpected sig kwargs with
  | Some k =>
      raise TypeError
        (fname ++ "() got an unexpected keyword argument '" ++ k ++ "'")
  | None =>
      match missing_required sig kwargs with
      | [] =>
          Ok (fun name =>
                match lookup name kwargs with
                | Some v => v
                | None =>
                    match find (fun p => String.eqb (fst p) name) sig with
                    | Some (_, Some d) => d
                    | _ => PNone
                    end
                end)
      | names =>
          raise TypeError
            (fname ++ "() missing "
             ++ string_of_Z (Z.of_nat (List.length names))
             ++ " required positional argument"
             ++ (if (List.length names =? 1)%nat then "" else "s")
             ++ ": " ++ name_list names)
      end
  end.

Definition sig_search_restaurants : signature :=
  [("area", None); ("max_budget_per_person", None);
   ("cuisine", Some (PStr "")); ("limit", Some (PInt 5))].

Definition sig_search_movies : signature :=
  [("preferred_genre", Some (PStr "")); ("max_ticket_price", Some (PInt 400));
   ("limit", Some (PInt 5))].

Definition sig_search_places : signature :=
  [("interests", Some (PStr "sightseeing")); ("max_entry_fee", Some (PInt 200));
   ("area", Some (PStr "Hyderabad")); ("limit", Some (PInt 6))].

Definition sig_get_travel_info : signature :=
  [("origin", None); ("destination", None)].

(** Every class of [exn_class] derives from [Exception]. *)
Definition is_Exception (c : exn_class) : bool := true.

(** The block under [try] in [execute_tool], up to [json.dumps]. *)
Definition tool_result (w : world) (tool_name : string)
  (tool_input : list (string * pyval)) : res pyval :=
  if String.eqb tool_name "search_restaurants" then
    a <- bind_kwargs "search_restaurants" sig_search_restaurants tool_input ;;
    search_restaurants w (a "area") (a "max_budget_per_person") (a "cuisine")
      (a "limit")
  else if String.eqb tool_name "search_movies" then
    a <- bind_kwargs "search_movies" sig_search_movies tool_input ;;
    search_movies w (a "preferred_genre") (a "max_ticket_price") (a "limit")
  else if String.eqb tool_name "search_places" then
    a <- bind_kwargs "search_places" sig_search_places tool_input ;;
    search_places w (a "interests") (a "max_entry_fee") (a "area") (a "limit")
  else if String.eqb tool_name "get_travel_info" then
    a <- bind_kwargs "get_travel_info" sig_get_travel_info tool_input ;;
    get_travel_info w (a "origin") (a "destination")
  else Ok (PDict [("error", PStr ("Unknown tool: " ++ tool_name))]).

Definition execute_tool (w : world) (tool_name : string)
  (tool_input : list (string * pyval)) : res string :=
  try_except
    (result <- tool_result w tool_name tool_input ;;
     Ok (Json.dumps false result))
    is_Exception
    (fun e => Ok (Json.dumps true (PDict [("error", PStr (exn_msg e))]))).

(** ** Definitions the statements use *)

Definition sign_of (n : Z) : bool := n <? 0.

Definition comparison_eqb (a b : comparison) : bool :=
  match a, b with
  | Eq, Eq | Lt, Lt | Gt, Gt => true
  | _, _ => false
  end.

(** The comparison of [c] with the float product [B * k] agrees with the
    comparison of [c] with [B * num / den], at the integer [B]. *)
Definition scale_agrees (k : spec_float) (num den c B : Z) : bool :=
  match B64.Zcompare c (B64.mul (B64.of_Z B) k) with
  | Some r => comparison_eqb r (c * den ?= num * B)
  | None => false
  end.

Fixpoint forall_from (f : Z -> bool) (lo : Z) (n : nat) : bool :=
  match n with
  | O => true
  | S n' => f lo && forall_from f (lo + 1) n'
  end.

(** [f] holds of every integer from [0] up to [2^b], that one left out. *)
Definition forall_below (f : Z -> bool) (b : Z) : bool :=
  forall_from f 0 (Z.to_nat (2 ^ b)).

(** The int a record holds under [key]; [0] when it holds none. *)
Definition int_field (key : string) (r : pyval) : Z :=
  match py_getitem_str r key with
  | Ok (PInt c) => c
  | _ => 0
  end.

Definition within_half (B : Z) (r : pyval) : bool :=
  2 * int_field "estimated_cost" r <=? B.

Definition within_15_percent (B : Z) (p : pyval) : bool :=
  100 * int_field "entry_fee" p <=? 15 * B.

(** A place as the places source lists it: an object whose price level, when
    it has one, is an integer. *)
Definition listed_place (p : pyval) : Prop :=
  exists d, p = PDict d
    /\ (lookup "price_level" d = None
        \/ exists n, lookup "price_level" d = Some (PInt n)).

(** The price level of a place, 2 when it has none. *)
Definition level_of (p : pyval) : Z :=
  match p with
  | PDict d =>
      match lookup "price_level" d with
      | Some (PInt n) => n
      | _ => 2
      end
  | _ => 2
  end.

(** The fixed table from price levels to costs, 350 outside of it. *)
Definition table_cost (level : Z) : Z :=
  if level =? 1 then 150
  else if level =? 2 then 350
  else if level =? 3 then 600
  else if level =? 4 then 1200
  else 350.

Definition cost_of_place (p : pyval) : Z := table_cost (level_of p).

(** The estimated cost of the place is at most 45% of the budget. *)
Definition affordable (B : Z) (p : pyval) : bool :=
  100 * cost_of_place p <=? 45 * B.

Definition field (key : string) (default : pyval) (p : pyval) : pyval :=
  match p with
  | PDict d =>
      match lookup key d with
      | Some v => v
      | None => default
      end
  | _ => default
  end.

(** The record [search_restaurants] makes of a place. *)
Definition restaurant_entry (area p : pyval) : pyval :=
  PDict [("name", field "name" PNone p);
         ("address", field "formatted_address" area p);
         ("rating", field "rating" (PFloat f_4_0) p);
         ("price_level", PInt (level_of p));
         ("estimated_cost", PInt (cost_of_place p));
         ("maps_url",
          PStr ("https://www.google.com/maps/place/?q=place_id:"
                ++ py_str (field "place_id" PNone p)));
         ("place_id", field "place_id" PNone p)].

(** The live result as the sentence of the specification has it: the first
    [limit] entries of the budget-filtered response list, and the mock list
    exactly when no entry of the response survives the filter. *)
Definition live_result_as_claimed (area : pyval) (B limit : Z)
  (places : list pyval) : res pyval :=
  match filter (affordable B) places with
  | [] => _mock_restaurants area (PInt B)
  | survivors =>
      Ok (PList (map (restaurant_entry area)
                   (firstn (Z.to_nat limit) survivors)))
  end.

Definition costly_place : pyval :=
  PDict [("name", PStr "Costly"); ("price_level", PInt 4)].
Definition cheap_place : pyval :=
  PDict [("name", PStr "Cheap"); ("price_level", PInt 1)].

(** A world with a key whose places source answers with two places, the
    costly one first. *)
Definition w_two_places : world :=
  World "key" ""
    (fun _ _ => Ok (PDict [("results", PList [costly_place; cheap_place])])).

(** A world with a search key whose search source lists one showtime. *)
Definition w_one_showtime : world :=
  World "" "key"
    (fun _ _ => Ok (PDict [("showtimes", PList [PDict [("name", PStr "Film")]])])).

(** A world with no key at all. *)
Definition w_offline : world :=
  World "" "" (fun _ _ => raise RemoteError "no network").

(** The three tiers of the ticket price. *)
Definition price_tier (max_price : Z) : Z :=
  if 400 <=? max_price then 350
  else if 250 <=? max_price then 220
  else 150.





(** A value that is no number: [None], a string, a list or an object. *)
Definition not_a_number (v : pyval) : Prop :=
  match v with
  | PNone | PStr _ | PList _ | PDict _ => True
  | PBool _ | PInt _ | PFloat _ => False
  end.








(** A world with a key whose distance source found no route: the element
    has a status and no distance. *)
Definition w_no_distance : world :=
  World "key" ""
    (fun _ _ =>
       Ok (PDict [("rows",
                   PList [PDict [("elements",
                                  PList [PDict [("status", PStr "NOT_FOUND")]])]]);
                  ("status", PStr "OK")])).

(** The record of the heuristic, as JSON text. *)
Definition heuristic_json : string :=
  "{" ++ quoted "distance_km" ++ ": 8.0, "
      ++ quoted "duration_mins" ++ ": 20, "
      ++ quoted "cab_fare_inr" ++ ": 130, "
      ++ quoted "mode" ++ ": " ++ quoted "Uber/Ola" ++ "}".

(** A character the JSON encoder leaves as it is when [ensure_ascii] is
    false. *)
Definition plain_char (c : ascii) : bool :=
  (32 <=? byte_of c) && negb (byte_of c =? 34) && negb (byte_of c =? 92).

Fixpoint plain (s : string) : bool :=
  match s with
  | EmptyString => true
  | String c rest => plain_char c && plain rest
  end.

Definition known_tool (tool_name : string) : bool :=
  String.eqb tool_name "search_restaurants"
  || String.eqb tool_name "search_movies"
  || String.eqb tool_name "search_places"
  || String.eqb tool_name "get_travel_info".

(** The signature of a tool, by its name. *)
Definition signature_of (tool_name : string) : option signature :=
  if String.eqb tool_name "search_restaurants" then Some sig_search_restaurants
  else if String.eqb tool_name "search_movies" then Some sig_search_movies
  else if String.eqb tool_name "search_places" then Some sig_search_places
  else if String.eqb tool_name "get_travel_info" then Some sig_get_travel_info
  else None.

(** The error record of a message, as the handler of [execute_tool]
    serializes it. *)
Definition error_json (msg : string) : string :=
  Json.dumps true (PDict [("error", PStr msg)]).

(** *** More definitions the statements use *)







Definition within_budget (B : Z) (m : pyval) : bool :=
  int_field "ticket_price" m <=? B.





(** A world with a key whose places source lists two attractions. *)
Definition two_attractions : list pyval :=
  [PDict [("name", PStr "Ramoji Film City"); ("place_id", PStr "r1")];
   PDict [("formatted_address", PStr "Tank Bund")]].

Definition w_two_attractions : world :=
  World "key" "" (fun _ _ => Ok (PDict [("results", PList two_attractions)])).









(** A record with an estimated cost, positive and at most half of [B]. *)
Definition costs_at_most_half (B : Z) (r : pyval) : Prop :=
  exists c, py_getitem_str r "estimated_cost" = Ok (PInt c)
            /\ 0 < c /\ 2 * c <= B.

(** A world with a key whose places source lists a place with a price level
    that is a string, and a place of level 4. *)
Definition w_odd_levels : world :=
  World "key" ""
    (fun _ _ =>
       Ok (PDict [("results",
                   PList [PDict [("name", PStr "Cafe");
                                 ("price_level", PStr "cheap")];
                          PDict [("name", PStr "Grand");
                                 ("price_level", PInt 4)]])])).

(** * Properties *)

(** ** Facts of binary64 arithmetic *)

Module B64Facts.


Lemma digits2_size (p : positive) : digits2_pos p = Pos.size p.
Proof. induction p; simpl; congruence. Qed.

Lemma digits_bounds (p : positive) :
  2 ^ (Zpos (digits2_pos p) - 1) <= Zpos p < 2 ^ Zpos (digits2_pos p).
Proof.
  rewrite digits2_size.
  pose proof (Pos.size_gt p) as Hgt.
  pose proof (Pos.size_le p) as Hle.
  apply Pos2Z.pos_lt_pos in Hgt. apply Pos2Z.pos_le_pos in Hle.
  rewrite Pos2Z.inj_pow in Hgt, Hle.
  change (Zpos p~0) with (2 * Zpos p) in Hle.
  replace (Zpos (Pos.size p)) with (Z.succ (Zpos (Pos.size p) - 1)) in Hle at 1 by lia.
  rewrite Z.pow_succ_r in Hle by lia.
  lia.
Qed.

Lemma digits_unique (p : positive) (k : Z) :
  2 ^ (k - 1) <= Zpos p < 2 ^ k -> Zpos (digits2_pos p) = k.
Proof.
  intros [Hlo Hhi].
  destruct (digits_bounds p) as [Dlo Dhi].
  assert (0 < k).
  { destruct (Z.le_gt_cases k 0) as [Hk|Hk]; [|exact Hk].
    assert (2 ^ k <= 2 ^ 0) by (apply Z.pow_le_mono_r; lia).
    simpl in *. lia. }
  assert (k - 1 < Zpos (digits2_pos p)).
  { apply (Z.pow_lt_mono_r_iff 2); lia. }
  assert (Zpos (digits2_pos p) - 1 < k).
  { apply (Z.pow_lt_mono_r_iff 2); lia. }
  lia.
Qed.

Lemma shr_1_m (mrs : shr_record) :
  0 <= shr_m mrs -> shr_m (shr_1 mrs) = shr_m mrs / 2.
Proof.
  destruct mrs as [m r s]. simpl. intros Hm.
  destruct m as [|[q|q|]|q]; simpl; try reflexivity; try lia.
  - apply Z.div_unique with (r := 1); lia.
  - apply Z.div_unique with (r := 0); lia.
Qed.

Lemma shr_1_nonneg (mrs : shr_record) :
  0 <= shr_m mrs -> 0 <= shr_m (shr_1 mrs).
Proof.
  intros H. rewrite shr_1_m by exact H. apply Z.div_pos; lia.
Qed.

Lemma iter_shr_m (p : positive) : forall mrs : shr_record,
  0 <= shr_m mrs ->
  shr_m (iter_pos shr_1 p mrs) = shr_m mrs / 2 ^ Zpos p.
Proof.
  induction p as [p IH|p IH|]; intros mrs Hm; simpl iter_pos.
  - assert (Hp : 0 < 2 ^ Zpos p) by (apply Z.pow_pos_nonneg; lia).
    assert (H1 : 0 <= shr_m (shr_1 mrs)) by (apply shr_1_nonneg; exact Hm).
    assert (H2 : 0 <= shr_m (iter_pos shr_1 p (shr_1 mrs))).
    { rewrite IH by exact H1. apply Z.div_pos; lia. }
    rewrite IH by exact H2. rewrite IH by exact H1. rewrite shr_1_m by exact Hm.
    rewrite !Z.div_div by lia.
    f_equal. replace (Zpos p~1) with (Z.succ (Zpos p + Zpos p)) by lia.
    rewrite Z.pow_succ_r, Z.pow_add_r by lia. reflexivity.
  - assert (Hp : 0 < 2 ^ Zpos p) by (apply Z.pow_pos_nonneg; lia).
    assert (H2 : 0 <= shr_m (iter_pos shr_1 p mrs)).
    { rewrite IH by exact Hm. apply Z.div_pos; lia. }
    rewrite IH by exact H2. rewrite IH by exact Hm.
    rewrite Z.div_div by lia.
    f_equal. replace (Zpos p~0) with (Zpos p + Zpos p) by lia.
    rewrite Z.pow_add_r by lia. reflexivity.
  - rewrite shr_1_m by exact Hm. reflexivity.
Qed.

Lemma shr_m_of_loc (m : Z) (l : location) : shr_m (shr_record_of_loc m l) = m.
Proof. destruct l as [|[ | | ]]; reflexivity. Qed.

(** The mantissa and the exponent [shr] gives. *)
Lemma shr_spec (mrs : shr_record) (e n : Z) :
  0 <= shr_m mrs ->
  shr_m (fst (shr mrs e n)) = shr_m mrs / 2 ^ Z.max n 0
  /\ snd (shr mrs e n) = e + Z.max n 0.
Proof.
  intros Hm. destruct n as [|p|p]; simpl.
  - rewrite Z.div_1_r. lia.
  - rewrite iter_shr_m by exact Hm. split; reflexivity.
  - rewrite Z.div_1_r. lia.
Qed.

Lemma rne_bounds (m : Z) (l : location) :
  m <= round_nearest_even m l <= m + 1.
Proof.
  destruct l as [|[ | | ]]; simpl; try lia.
  destruct (Z.even m); lia.
Qed.

Lemma fexp_normal (x : Z) : -1074 <= x - 53 -> fexp 53 1024 x = x - 53.
Proof. unfold fexp, emin. lia. Qed.

(** What [binary_round_aux] gives for a mantissa of at least 53 digits in
    the normal range: a mantissa of 53 digits with the exponent that fits,
    or an infinity when that exponent is too large. *)
Lemma round_aux_shape (s : bool) (mx : positive) (ex : Z) (l : location) :
  53 <= Zpos (digits2_pos mx) ->
  -1074 <= Zpos (digits2_pos mx) + ex - 53 ->
  exists (m' : positive) (e' : Z),
    2 ^ 52 <= Zpos m' < 2 ^ 53 /\
    Zpos (digits2_pos mx) + ex - 53 <= e' <= Zpos (digits2_pos mx) + ex - 52 /\
    binary_round_aux 53 1024 s (Zpos mx) ex l =
      if e' <=? 971 then S754_finite s m' e' else S754_infinity s.
Proof.
  intros Hd Hn.
  pose proof (digits_bounds mx) as [Dlo Dhi].
  set (d := Zpos (digits2_pos mx)) in *.
  unfold binary_round_aux.
  destruct (shr_fexp 53 1024 (Zpos mx) ex l) as [mrs1 e1] eqn:H1.
  unfold shr_fexp in H1. simpl Zdigits2 in H1. fold d in H1.
  rewrite fexp_normal in H1 by lia.
  assert (S1 := shr_spec (shr_record_of_loc (Zpos mx) l) ex (d + ex - 53 - ex)).
  rewrite shr_m_of_loc in S1. rewrite H1 in S1. simpl fst in S1. simpl snd in S1.
  destruct S1 as [M1 E1]; [lia|].
  replace (Z.max (d + ex - 53 - ex) 0) with (d - 53) in M1, E1 by lia.
  assert (P : 0 < 2 ^ (d - 53)) by (apply Z.pow_pos_nonneg; lia).
  assert (Hsplit : 2 ^ (d - 1) = 2 ^ 52 * 2 ^ (d - 53)).
  { rewrite <- Z.pow_add_r by lia. f_equal. lia. }
  assert (Hsplit' : 2 ^ d = 2 ^ 53 * 2 ^ (d - 53)).
  { rewrite <- Z.pow_add_r by lia. f_equal. lia. }
  assert (B1 : 2 ^ 52 <= shr_m mrs1 < 2 ^ 53).
  { rewrite M1. split.
    - apply Z.div_le_lower_bound; lia.
    - apply Z.div_lt_upper_bound; lia. }
  pose proof (rne_bounds (shr_m mrs1) (loc_of_shr_record mrs1)) as R.
  set (m2 := round_nearest_even (shr_m mrs1) (loc_of_shr_record mrs1)) in *.
  destruct (shr_fexp 53 1024 m2 e1 loc_Exact) as [mrs2 e2] eqn:H2.
  unfold shr_fexp in H2.
  assert (S2 := shr_spec (shr_record_of_loc m2 loc_Exact) e1
                  (fexp 53 1024 (Zdigits2 m2 + e1) - e1)).
  rewrite H2 in S2. simpl fst in S2. simpl snd in S2. simpl shr_m in S2.
  destruct S2 as [M2 E2]; [lia|].
  change (2 ^ 52) with 4503599627370496 in *.
  change (2 ^ 53) with 9007199254740992 in *.
  destruct m2 as [|p2|p2] eqn:Hm2; try lia.
  simpl Zdigits2 in M2, E2.
  destruct (Z.eq_dec (Zpos p2) 9007199254740992) as [Heq|Hne].
  - assert (D2 : Zpos (digits2_pos p2) = 54).
    { apply digits_unique. rewrite Heq. simpl. lia. }
    rewrite D2 in M2, E2. rewrite fexp_normal in M2, E2 by lia.
    replace (Z.max (54 + e1 - 53 - e1) 0) with 1 in M2, E2 by lia.
    rewrite Heq in M2. change (9007199254740992 / 2 ^ 1) with 4503599627370496 in M2.
    rewrite M2. exists 4503599627370496%positive, e2.
    repeat split; try lia. 
  - assert (D2 : Zpos (digits2_pos p2) = 53).
    { apply digits_unique. simpl. lia. }
    rewrite D2 in M2, E2. rewrite fexp_normal in M2, E2 by lia.
    replace (Z.max (53 + e1 - 53 - e1) 0) with 0 in M2, E2 by lia.
    rewrite Z.div_1_r in M2.
    rewrite M2. exists p2, e2.
    repeat split; try lia.
Qed.

Lemma iter_xO_value (p k : positive) :
  Zpos (Pos.iter xO p k) = Zpos p * 2 ^ Zpos k.
Proof.
  induction k as [|k IH] using Pos.peano_ind.
  - simpl. lia.
  - rewrite Pos.iter_succ. rewrite Pos2Z.inj_xO, IH.
    rewrite Pos2Z.inj_succ, Z.pow_succ_r by lia. lia.
Qed.

(** The float of a nonzero integer: a mantissa of 53 digits and the
    exponent the number of digits of the integer gives. *)
Lemma binary_round_int_shape (s : bool) (p : positive) :
  exists (m' : positive) (e' : Z),
    2 ^ 52 <= Zpos m' < 2 ^ 53 /\
    Zpos (digits2_pos p) - 53 <= e' <= Zpos (digits2_pos p) - 52 /\
    binary_round 53 1024 s p 0 =
      if e' <=? 971 then S754_finite s m' e' else S754_infinity s.
Proof.
  pose proof (digits_bounds p) as [Dlo Dhi].
  assert (Dpos : 0 < Zpos (digits2_pos p)) by lia.
  unfold binary_round.
  rewrite Z.add_0_r, fexp_normal by lia.
  unfold shl_align.
  destruct (Zpos (digits2_pos p) - 53 - 0) as [|k|k] eqn:Hk.
  - destruct (round_aux_shape s p 0 loc_Exact) as (m' & e' & Hm & He & Hr);
      [lia|lia|].
    exists m', e'. repeat split; try lia. exact Hr.
  - destruct (round_aux_shape s p 0 loc_Exact) as (m' & e' & Hm & He & Hr);
      [lia|lia|].
    exists m', e'. repeat split; try lia. exact Hr.
  - assert (Dk : Zpos (digits2_pos (Pos.iter xO p k)) = 53).
    { apply digits_unique. rewrite iter_xO_value.
      assert (Hs : 2 ^ (53 - 1) = 2 ^ (Zpos (digits2_pos p) - 1) * 2 ^ Zpos k).
      { rewrite <- Z.pow_add_r by lia. f_equal. lia. }
      assert (Hs' : 2 ^ 53 = 2 ^ Zpos (digits2_pos p) * 2 ^ Zpos k).
      { rewrite <- Z.pow_add_r by lia. f_equal. lia. }
      assert (0 < 2 ^ Zpos k) by (apply Z.pow_pos_nonneg; lia).
      rewrite Hs, Hs'. split.
      - apply Z.mul_le_mono_nonneg_r; lia.
      - apply Z.mul_lt_mono_pos_r; lia. }
    destruct (round_aux_shape s (Pos.iter xO p k)
                (Zpos (digits2_pos p) - 53) loc_Exact)
      as (m' & e' & Hm & He & Hr); [lia|lia|].
    exists m', e'. repeat split; try lia. exact Hr.
Qed.

Lemma log2_digits (p : positive) :
  Z.log2 (Zpos p) = Zpos (digits2_pos p) - 1.
Proof.
  pose proof (digits_bounds p) as [Dlo Dhi].
  apply Z.log2_unique; [lia|].
  replace (Z.succ (Zpos (digits2_pos p) - 1)) with (Zpos (digits2_pos p)) by lia.
  lia.
Qed.

Lemma of_Z_shape (n : Z) :
  n <> 0 ->
  exists (m' : positive) (e' : Z),
    2 ^ 52 <= Zpos m' < 2 ^ 53 /\
    Z.log2 (Z.abs n) - 52 <= e' <= Z.log2 (Z.abs n) - 51 /\
    B64.of_Z n = if e' <=? 971 then S754_finite (sign_of n) m' e'
                 else S754_infinity (sign_of n).
Proof.
  intros Hn. unfold B64.of_Z, binary_normalize, B64.prec, B64.emax.
  destruct n as [|p|p]; [congruence| |];
    [ destruct (binary_round_int_shape false p) as (m' & e' & Hm & He & Hr)
    | destruct (binary_round_int_shape true p) as (m' & e' & Hm & He & Hr) ];
    exists m', e'; (split; [exact Hm|]); (split; [|exact Hr]);
    simpl Z.abs; rewrite log2_digits; lia.
Qed.

(** The product of two floats with mantissas of 53 digits, away from the
    subnormal range. *)
Lemma mul_shape (s : bool) (m mc : positive) (e ec : Z) :
  2 ^ 52 <= Zpos m < 2 ^ 53 ->
  2 ^ 52 <= Zpos mc < 2 ^ 53 ->
  -1074 <= e + ec + 52 ->
  exists (m' : positive) (e' : Z),
    2 ^ 52 <= Zpos m' < 2 ^ 53 /\
    e + ec + 52 <= e' <= e + ec + 54 /\
    B64.mul (S754_finite s m e) (S754_finite false mc ec) =
      if e' <=? 971 then S754_finite s m' e' else S754_infinity s.
Proof.
  intros Hm Hmc Hn.
  unfold B64.mul, SFmul, B64.prec, B64.emax.
  replace (xorb s false) with s by (destruct s; reflexivity).
  pose proof (digits_bounds (m * mc)) as [Dlo Dhi].
  rewrite Pos2Z.inj_mul in Dlo, Dhi.
  change (2 ^ 52) with 4503599627370496 in *.
  change (2 ^ 53) with 9007199254740992 in *.
  assert (L : 2 ^ 104 <= Zpos m * Zpos mc).
  { change (2 ^ 104) with (4503599627370496 * 4503599627370496). nia. }
  assert (U : Zpos m * Zpos mc < 2 ^ 106).
  { change (2 ^ 106) with (9007199254740992 * 9007199254740992). nia. }
  assert (D1 : 104 < Zpos (digits2_pos (m * mc))).
  { apply (Z.pow_lt_mono_r_iff 2); lia. }
  assert (D2 : Zpos (digits2_pos (m * mc)) - 1 < 106).
  { apply (Z.pow_lt_mono_r_iff 2); lia. }
  destruct (round_aux_shape s (m * mc) (e + ec) loc_Exact)
    as (m' & e' & Hm' & He' & Hr); [lia|lia|].
  exists m', e'. repeat split; try lia. exact Hr.
Qed.

Lemma float_of_int_inv (n : Z) (x : spec_float) :
  float_of_int n = Ok x -> x = B64.of_Z n /\ B64.is_infinity x = false.
Proof.
  unfold float_of_int, raise. destruct (B64.is_infinity (B64.of_Z n)) eqn:Hi.
  - discriminate.
  - intros H. injection H as <-. split; [reflexivity|exact Hi].
Qed.

(** A nonzero integer that converts gives a finite float with a mantissa of
    53 digits. *)
Lemma float_of_int_shape (n : Z) (x : spec_float) :
  n <> 0 -> float_of_int n = Ok x ->
  exists (m' : positive) (e' : Z),
    2 ^ 52 <= Zpos m' < 2 ^ 53 /\
    Z.log2 (Z.abs n) - 52 <= e' <= Z.log2 (Z.abs n) - 51 /\
    x = S754_finite (sign_of n) m' e'.
Proof.
  intros Hn Hx. apply float_of_int_inv in Hx. destruct Hx as [-> Hi].
  destruct (of_Z_shape n Hn) as (m' & e' & Hm & He & Hr).
  exists m', e'. split; [exact Hm|]. split; [exact He|].
  rewrite Hr in *. destruct (e' <=? 971); [reflexivity|discriminate].
Qed.

(** Every integer below [2^1023] in magnitude converts. *)
Lemma float_of_int_ok (n : Z) :
  Z.abs n < 2 ^ 1023 -> float_of_int n = Ok (B64.of_Z n).
Proof.
  intros Hn. unfold float_of_int.
  destruct (Z.eq_dec n 0) as [->|Hz]; [reflexivity|].
  destruct (of_Z_shape n Hz) as (m' & e' & Hm & He & Hr).
  assert (Z.log2 (Z.abs n) < 1023).
  { apply Z.log2_lt_pow2; lia. }
  rewrite Hr. replace (e' <=? 971) with true by (symmetry; apply Z.leb_le; lia).
  reflexivity.
Qed.

(** A conversion that raises is the overflow of an integer of at least
    [2^1023] in magnitude. *)
Lemma float_of_int_raise (n : Z) (e : exn) :
  float_of_int n = Raise e ->
  exn_cls e = OverflowError /\ 2 ^ 1023 <= Z.abs n.
Proof.
  intros H. destruct (Z_lt_le_dec (Z.abs n) (2 ^ 1023)) as [Hlt|Hge].
  - rewrite (float_of_int_ok n Hlt) in H. discriminate.
  - split; [|exact Hge]. unfold float_of_int, raise in H.
    destruct (B64.is_infinity (B64.of_Z n)); [|discriminate].
    injection H as <-. reflexivity.
Qed.

Lemma comparison_eqb_eq (a b : comparison) : comparison_eqb a b = true -> a = b.
Proof. destruct a, b; simpl; congruence. Qed.

Lemma forall_from_spec (f : Z -> bool) (n : nat) : forall lo : Z,
  forall_from f lo n = true ->
  forall z : Z, lo <= z < lo + Z.of_nat n -> f z = true.
Proof.
  induction n as [|n IH]; intros lo H z Hz.
  - simpl in Hz. lia.
  - cbn [forall_from] in H. apply andb_true_iff in H. destruct H as [H1 H2].
    destruct (Z.eq_dec z lo) as [->|Hne]; [exact H1|].
    apply (IH (lo + 1) H2). lia.
Qed.

Lemma forall_below_spec (f : Z -> bool) (b : Z) :
  forall_below f b = true ->
  forall z : Z, 0 <= z < 2 ^ b -> f z = true.
Proof.
  intros H z Hz. apply (forall_from_spec f _ 0 H).
  rewrite Z2Nat.id by lia. lia.
Qed.

Lemma Zcompare_large (a c : Z) (m : positive) (e : Z) :
  0 <= a <= 52 -> 0 <= c < 2 ^ a -> 2 ^ 52 <= Zpos m -> a - 52 <= e ->
  B64.Zcompare c (S754_finite false m e) = Some Lt.
Proof.
  intros Ha Hc Hm He. unfold B64.Zcompare. f_equal.
  assert (HA : 2 ^ a <= 2 ^ 52) by (apply Z.pow_le_mono_r; lia).
  destruct (0 <=? e) eqn:H0.
  - apply Z.leb_le in H0. apply Z.compare_lt_iff.
    assert (1 <= 2 ^ e) by (apply (Z.pow_le_mono_r 2 0 e); lia).
    nia.
  - apply Z.leb_gt in H0. apply Z.compare_lt_iff.
    assert (HP : 2 ^ (- e) <= 2 ^ (52 - a)) by (apply Z.pow_le_mono_r; lia).
    assert (HQ : 0 < 2 ^ (- e)) by (apply Z.pow_pos_nonneg; lia).
    assert (HS : 2 ^ 52 = 2 ^ a * 2 ^ (52 - a)).
    { rewrite <- Z.pow_add_r by lia. f_equal. lia. }
    assert (HT : c * 2 ^ (- e) <= c * 2 ^ (52 - a))
      by (apply Z.mul_le_mono_nonneg_l; lia).
    assert (HU : c * 2 ^ (52 - a) < 2 ^ a * 2 ^ (52 - a)).
    { apply Z.mul_lt_mono_pos_r; [|lia]. apply Z.pow_pos_nonneg; lia. }
    lia.
Qed.

Lemma Zcompare_negative (c : Z) (m : positive) (e : Z) :
  0 <= c -> B64.Zcompare c (S754_finite true m e) = Some Gt.
Proof.
  intros Hc. unfold B64.Zcompare. f_equal.
  destruct (0 <=? e) eqn:H0.
  - apply Z.leb_le in H0. apply Z.compare_gt_iff.
    assert (0 < 2 ^ e) by (apply Z.pow_pos_nonneg; lia).
    assert (Zneg m * 2 ^ e < 0) by (apply Z.mul_neg_pos; lia).
    lia.
  - apply Z.leb_gt in H0. apply Z.compare_gt_iff.
    assert (0 < 2 ^ (- e)) by (apply Z.pow_pos_nonneg; lia).
    assert (0 <= c * 2 ^ (- e)) by (apply Z.mul_nonneg_nonneg; lia).
    lia.
Qed.

(** The comparison of a small integer [c < 2^a] with the float product
    [B * k], for [k] the float nearest to [num / den]: it is the comparison
    of [c] with the exact product, once the integers [B] below [2^b] have
    been checked one by one. *)
Lemma scaled_compare_exact (mc : positive) (ec num den a b : Z) (cs : list Z) :
  2 ^ 52 <= Zpos mc < 2 ^ 53 ->
  -55 <= ec <= 0 ->
  0 < num -> 0 < den ->
  0 <= a <= 52 -> 0 <= b -> a - 52 <= b + ec ->
  2 ^ a * den <= num * 2 ^ b ->
  (forall c, In c cs -> 0 <= c < 2 ^ a) ->
  forall_below
    (fun B => forallb (fun c => scale_agrees (S754_finite false mc ec) num den c B) cs)
    b = true ->
  forall (c B : Z) (x : spec_float),
    In c cs -> float_of_int B = Ok x ->
    B64.Zcompare c (B64.mul x (S754_finite false mc ec))
    = Some (c * den ?= num * B).
Proof.
  intros Hmc Hec Hnum Hden Ha Hb Hab Hbig Hcs Hcheck c B x Hc Hx.
  specialize (Hcs c Hc).
  destruct (Z_lt_le_dec B 0) as [Hneg|Hnn].
  - destruct (float_of_int_shape B x) as (m' & e' & Hm & He & ->); [lia|exact Hx|].
    pose proof (Z.log2_nonneg (Z.abs B)) as Hl.
    destruct (mul_shape (sign_of B) m' mc e' ec) as (m2 & e2 & Hm2 & He2 & Hr);
      [exact Hm|exact Hmc|lia|].
    rewrite Hr. unfold sign_of.
    replace (B <? 0) with true by (symmetry; apply Z.ltb_lt; lia).
    replace (c * den ?= num * B) with Gt by (symmetry; apply Z.compare_gt_iff; nia).
    destruct (e2 <=? 971); [apply Zcompare_negative; lia|reflexivity].
  - destruct (Z_lt_le_dec B (2 ^ b)) as [Hsmall|Hlarge].
    + apply float_of_int_inv in Hx. destruct Hx as [-> _].
      pose proof (forall_below_spec _ _ Hcheck B (conj Hnn Hsmall)) as HB.
      rewrite forallb_forall in HB. specialize (HB c Hc).
      unfold scale_agrees in HB.
      destruct (B64.Zcompare c (B64.mul (B64.of_Z B) (S754_finite false mc ec)));
        [|discriminate].
      f_equal. apply comparison_eqb_eq. exact HB.
    + assert (Hpos : 0 < 2 ^ b) by (apply Z.pow_pos_nonneg; lia).
      destruct (float_of_int_shape B x) as (m' & e' & Hm & He & ->); [lia|exact Hx|].
      assert (Hl : b <= Z.log2 (Z.abs B)).
      { rewrite <- (Z.log2_pow2 b) by lia. apply Z.log2_le_mono. lia. }
      destruct (mul_shape (sign_of B) m' mc e' ec) as (m2 & e2 & Hm2 & He2 & Hr);
        [exact Hm|exact Hmc|lia|].
      rewrite Hr. unfold sign_of.
      replace (B <? 0) with false by (symmetry; apply Z.ltb_ge; lia).
      replace (c * den ?= num * B) with Lt by (symmetry; apply Z.compare_lt_iff; nia).
      destruct (e2 <=? 971); [apply (Zcompare_large a); lia|reflexivity].
Qed.

Lemma check_0_5 :
  forall_below
    (fun B => forallb (fun c => scale_agrees f_0_5 1 2 c B)
                [320; 280; 350; 700; 600; 200; 250]) 11 = true.
Proof. vm_cast_no_check (@eq_refl bool true). Qed.

Lemma check_0_45 :
  forall_below
    (fun B => forallb (fun c => scale_agrees f_0_45 45 100 c B)
                [150; 350; 600; 1200]) 13 = true.
Proof. vm_cast_no_check (@eq_refl bool true). Qed.

Lemma check_0_15 :
  forall_below
    (fun B => forallb (fun c => scale_agrees f_0_15 15 100 c B)
                [0; 35; 25; 50]) 9 = true.
Proof. vm_cast_no_check (@eq_refl bool true). Qed.

End B64Facts.

Import B64Facts.

(** The literals of the source are the floats nearest to their decimals. *)
Example f_0_5_literal : B64.literal 5 1 = f_0_5.
Proof. vm_compute. reflexivity. Qed.

Example f_0_45_literal : B64.literal 45 2 = f_0_45.
Proof. vm_compute. reflexivity. Qed.

Example f_0_15_literal : B64.literal 15 2 = f_0_15.
Proof. vm_compute. reflexivity. Qed.

Example f_8_0_integer : f_8_0 = B64.of_Z 8.
Proof. vm_compute. reflexivity. Qed.

Example float_repr_examples :
  map FloatRepr.float_repr
    [f_8_0; f_4_4; f_0_45; B64.add (B64.literal 1 1) (B64.literal 2 1);
     B64.of_Z (10 ^ 16); B64.literal 1 5]
  = ["8.0"; "4.4"; "0.45"; "0.30000000000000004"; "1e+16"; "1e-05"].
Proof. vm_compute. reflexivity. Qed.

(** ** The mock lists *)

Lemma Zleb_of_compare (c : Z) (y : spec_float) (a b : Z) :
  B64.Zcompare c y = Some (a ?= b) -> B64.Zleb c y = (a <=? b).
Proof.
  intros H. unfold B64.Zleb. rewrite H. unfold Z.leb.
  destruct (a ?= b); reflexivity.
Qed.

Lemma Zgtb_of_compare (c : Z) (y : spec_float) (a b : Z) :
  B64.Zcompare c y = Some (a ?= b) -> B64.Zgtb c y = (b <? a).
Proof.
  intros H. unfold B64.Zgtb. rewrite H. rewrite Z.ltb_antisym. unfold Z.leb.
  destruct (a ?= b); reflexivity.
Qed.

Lemma le_half_exact (c B : Z) (x : spec_float) :
  In c [320; 280; 350; 700; 600; 200; 250] ->
  float_of_int B = Ok x ->
  B64.Zleb c (B64.mul x f_0_5) = (2 * c <=? B).
Proof.
  intros Hc Hx.
  rewrite (Zleb_of_compare _ _ (c * 2) (1 * B)).
  - f_equal; lia.
  - apply (scaled_compare_exact 4503599627370496 (-53) 1 2 10 11
             [320; 280; 350; 700; 600; 200; 250]);
      [ simpl; lia | lia | lia | lia | lia | lia | lia | simpl; lia
      | intros c' Hc'; simpl in Hc'; simpl; lia
      | exact check_0_5 | exact Hc | exact Hx ].
Qed.

Lemma gt_45_percent_exact (c B : Z) (x : spec_float) :
  In c [150; 350; 600; 1200] ->
  float_of_int B = Ok x ->
  B64.Zgtb c (B64.mul x f_0_45) = (45 * B <? 100 * c).
Proof.
  intros Hc Hx.
  rewrite (Zgtb_of_compare _ _ (c * 100) (45 * B)).
  - f_equal; lia.
  - apply (scaled_compare_exact 8106479329266893 (-54) 45 100 11 13
             [150; 350; 600; 1200]);
      [ simpl; lia | lia | lia | lia | lia | lia | lia | simpl; lia
      | intros c' Hc'; simpl in Hc'; simpl; lia
      | exact check_0_45 | exact Hc | exact Hx ].
Qed.

Lemma le_15_percent_exact (c B : Z) (x : spec_float) :
  In c [0; 35; 25; 50] ->
  float_of_int B = Ok x ->
  B64.Zleb c (B64.mul x f_0_15) = (100 * c <=? 15 * B).
Proof.
  intros Hc Hx.
  rewrite (Zleb_of_compare _ _ (c * 100) (15 * B)).
  - f_equal; lia.
  - apply (scaled_compare_exact 5404319552844595 (-55) 15 100 6 9
             [0; 35; 25; 50]);
      [ simpl; lia | lia | lia | lia | lia | lia | lia | simpl; lia
      | intros c' Hc'; simpl in Hc'; simpl; lia
      | exact check_0_15 | exact Hc | exact Hx ].
Qed.

Lemma filter_res_pure {A : Type} (f : A -> res bool) (g : A -> bool)
  (l : list A) :
  (forall x, In x l -> f x = Ok (g x)) ->
  filter_res f l = Ok (filter g l).
Proof.
  induction l as [|a l IH]; intros H; [reflexivity|].
  simpl. rewrite (H a (or_introl eq_refl)). simpl.
  rewrite IH by (intros x Hx; apply H; right; exact Hx).
  reflexivity.
Qed.

Lemma restaurant_costs (r : pyval) :
  In r all_restaurants ->
  exists c, py_getitem_str r "estimated_cost" = Ok (PInt c)
            /\ In c [320; 280; 350; 700; 600; 200; 250].
Proof.
  unfold all_restaurants. intros H.
  repeat (destruct H as [<-|H];
          [eexists; split; [reflexivity|simpl; tauto]|]).
  destruct H.
Qed.

Lemma place_fees (p : pyval) :
  In p all_places ->
  exists c, py_getitem_str p "entry_fee" = Ok (PInt c)
            /\ In c [0; 35; 25; 50].
Proof.
  unfold all_places. intros H.
  repeat (destruct H as [<-|H];
          [eexists; split; [reflexivity|simpl; tauto]|]).
  destruct H.
Qed.

(** With a budget that converts, the mock restaurants are those of the
    catalogue whose cost is at most half of the budget, the first four. *)
Lemma mock_restaurants_exact (area : pyval) (B : Z) (x : spec_float) :
  float_of_int B = Ok x ->
  _mock_restaurants area (PInt B)
  = Ok (PList (firstn 4 (filter (within_half B) all_restaurants))).
Proof.
  intros Hx. unfold _mock_restaurants.
  rewrite (filter_res_pure _ (within_half B)); [reflexivity|].
  intros r Hr. destruct (restaurant_costs r Hr) as (c & Hget & Hc).
  rewrite Hget. cbn [bind]. unfold py_mul_float. rewrite Hx. cbn [bind].
  unfold py_le_float. rewrite (le_half_exact c B x Hc Hx).
  unfold within_half, int_field. rewrite Hget. reflexivity.
Qed.

Lemma mock_restaurants_overflow (area : pyval) (B : Z) (e : exn) :
  float_of_int B = Raise e -> _mock_restaurants area (PInt B) = Raise e.
Proof.
  intros Hx. unfold _mock_restaurants, all_restaurants. cbn [filter_res].
  change (py_getitem_str
            (restaurant "Paradise Biryani" "MG Road, Secunderabad" f_4_4 320
               "https://maps.google.com/?q=Paradise+Biryani+Hyderabad")
            "estimated_cost") with (Ok (PInt 320)).
  cbn [bind]. unfold py_mul_float. rewrite Hx. reflexivity.
Qed.

Lemma mock_places_exact (interests : pyval) (B : Z) (x : spec_float) :
  float_of_int B = Ok x ->
  _mock_places interests (PInt B)
  = Ok (PList (firstn 4 (filter (within_15_percent B) all_places))).
Proof.
  intros Hx. unfold _mock_places.
  rewrite (filter_res_pure _ (within_15_percent B)); [reflexivity|].
  intros r Hr. destruct (place_fees r Hr) as (c & Hget & Hc).
  rewrite Hget. cbn [bind]. unfold py_mul_float. rewrite Hx. cbn [bind].
  unfold py_le_float. rewrite (le_15_percent_exact c B x Hc Hx).
  unfold within_15_percent, int_field. rewrite Hget. reflexivity.
Qed.

Lemma mock_places_overflow (interests : pyval) (B : Z) (e : exn) :
  float_of_int B = Raise e -> _mock_places interests (PInt B) = Raise e.
Proof.
  intros Hx. unfold _mock_places, all_places. cbn [filter_res].
  change (py_getitem_str
            (place "Hussain Sagar Lake & Tank Bund" "Tank Bund Road, Hyderabad"
               f_4_3 0 60 "https://maps.google.com/?q=Hussain+Sagar+Lake")
            "entry_fee") with (Ok (PInt 0)).
  cbn [bind]. unfold py_mul_float. rewrite Hx. reflexivity.
Qed.

Lemma In_firstn {A : Type} (n : nat) : forall (l : list A) (x : A),
  In x (firstn n l) -> In x l.
Proof.
  induction n as [|n IH]; intros [|a l] x H; simpl in H; try contradiction.
  destruct H as [->|H]; [left; reflexivity|right; apply IH; exact H].
Qed.

Lemma no_key_empty : no_key "" = true.
Proof. reflexivity. Qed.

Lemma no_key_present (k : string) : k <> "" -> no_key k = false.
Proof.
  intros H. unfold no_key, py_truthy.
  destruct (String.eqb_spec k ""); [contradiction|reflexivity].
Qed.

Lemma Qle_scaled (c B : Z) (num : Z) (den : positive) :
  (inject_Z c <= (num # den) * inject_Z B)%Q <-> c * Zpos den <= num * B.
Proof.
  unfold Qle, Qmult, inject_Z. cbn [Qnum Qden].
  rewrite Pos.mul_1_r. lia.
Qed.

(** C2. Without a Google key, [search_restaurants] gives the mock list: for
    every area and every budget [B], the list it returns has at most four
    entries and the estimated cost of each is at most half of [B].  It does
    return for every budget below [2^1023] in magnitude; the one way it
    does not is the [OverflowError] of the product of the budget and 0.5,
    for a budget beyond the range of a float. *)
Theorem mock_restaurants_at_most_4_within_half :
  forall (w : world) (area : string) (B : Z) (cuisine limit : pyval),
    GOOGLE_API_KEY w = "" ->
    (Z.abs B < 2 ^ 1023 ->
     exists rs, search_restaurants w (PStr area) (PInt B) cuisine limit
                = Ok (PList rs))
    /\ (forall v,
          search_restaurants w (PStr area) (PInt B) cuisine limit = Ok v ->
          exists rs,
            v = PList rs /\ (List.length rs <= 4)%nat
            /\ Forall (fun r =>
                         exists c,
                           py_getitem_str r "estimated_cost" = Ok (PInt c)
                           /\ (inject_Z c <= 0.5 * inject_Z B)%Q) rs)
    /\ (forall e,
          search_restaurants w (PStr area) (PInt B) cuisine limit = Raise e ->
          exn_cls e = OverflowError /\ 2 ^ 1023 <= Z.abs B).
Proof.
  intros w area B cuisine limit Hkey.
  unfold search_restaurants. rewrite Hkey, no_key_empty. split; [|split].
  - intros HB. eexists. apply mock_restaurants_exact with (x := B64.of_Z B).
    apply float_of_int_ok. exact HB.
  - intros v Hv. destruct (float_of_int B) as [x|e] eqn:Hx.
    + rewrite (mock_restaurants_exact _ B x Hx) in Hv.
      exists (firstn 4 (filter (within_half B) all_restaurants)).
      split; [congruence|]. split; [apply firstn_le_length|].
      apply Forall_forall. intros r Hr. apply In_firstn in Hr.
      apply filter_In in Hr. destruct Hr as [Hin Hle].
      destruct (restaurant_costs r Hin) as (c & Hget & _).
      exists c. split; [exact Hget|].
      unfold within_half, int_field in Hle. rewrite Hget in Hle.
      apply Z.leb_le in Hle. apply (Qle_scaled c B 5 10). lia.
    + rewrite (mock_restaurants_overflow _ B e Hx) in Hv. discriminate.
  - intros e He. destruct (float_of_int B) as [x|e'] eqn:Hx.
    + rewrite (mock_restaurants_exact _ B x Hx) in He. discriminate.
    + rewrite (mock_restaurants_overflow _ B e' Hx) in He.
      injection He as <-. exact (float_of_int_raise B e' Hx).
Qed.

Lemma mock_restaurants_witness :
  exists rs,
    search_restaurants w_offline (PStr "Abids") (PInt 700) (PStr "") (PInt 5)
    = Ok (PList rs)
    /\ (List.length rs <= 4)%nat
    /\ Forall (fun r =>
                 exists c,
                   py_getitem_str r "estimated_cost" = Ok (PInt c)
                   /\ (inject_Z c <= 0.5 * inject_Z 700)%Q) rs.
Proof.
  destruct (mock_restaurants_at_most_4_within_half w_offline "Abids" 700
              (PStr "") (PInt 5) eq_refl) as (Hret & Hall & _).
  destruct (Hret eq_refl) as [rs Hrs]. exists rs. split; [exact Hrs|].
  destruct (Hall _ Hrs) as (rs' & Heq & Hlen & Hcost).
  injection Heq as <-. split; [exact Hlen|exact Hcost].
Defined.

(** C3. Without a Google key, [search_places] gives the mock list: for every
    budget [B], the list it returns has at most four entries and the entry
    fee of each is at most 15% of [B].  It does return for every budget
    below [2^1023] in magnitude; the one way it does not is the
    [OverflowError] of the product of the budget and 0.15, for a budget
    beyond the range of a float. *)
Theorem mock_places_at_most_4_within_15_percent :
  forall (w : world) (interests area limit : pyval) (B : Z),
    GOOGLE_API_KEY w = "" ->
    (Z.abs B < 2 ^ 1023 ->
     exists ps, search_places w interests (PInt B) area limit = Ok (PList ps))
    /\ (forall v,
          search_places w interests (PInt B) area limit = Ok v ->
          exists ps,
            v = PList ps /\ (List.length ps <= 4)%nat
            /\ Forall (fun p =>
                         exists fee,
                           py_getitem_str p "entry_fee" = Ok (PInt fee)
                           /\ (inject_Z fee <= 0.15 * inject_Z B)%Q) ps)
    /\ (forall e,
          search_places w interests (PInt B) area limit = Raise e ->
          exn_cls e = OverflowError /\ 2 ^ 1023 <= Z.abs B).
Proof.
  intros w interests area limit B Hkey.
  unfold search_places. rewrite Hkey, no_key_empty. split; [|split].
  - intros HB. eexists. apply mock_places_exact with (x := B64.of_Z B).
    apply float_of_int_ok. exact HB.
  - intros v Hv. destruct (float_of_int B) as [x|e] eqn:Hx.
    + rewrite (mock_places_exact _ B x Hx) in Hv.
      exists (firstn 4 (filter (within_15_percent B) all_places)).
      split; [congruence|]. split; [apply firstn_le_length|].
      apply Forall_forall. intros r Hr. apply In_firstn in Hr.
      apply filter_In in Hr. destruct Hr as [Hin Hle].
      destruct (place_fees r Hin) as (c & Hget & _).
      exists c. split; [exact Hget|].
      unfold within_15_percent, int_field in Hle. rewrite Hget in Hle.
      apply Z.leb_le in Hle. apply (Qle_scaled c B 15 100). lia.
    + rewrite (mock_places_overflow _ B e Hx) in Hv. discriminate.
  - intros e He. destruct (float_of_int B) as [x|e'] eqn:Hx.
    + rewrite (mock_places_exact _ B x Hx) in He. discriminate.
    + rewrite (mock_places_overflow _ B e' Hx) in He.
      injection He as <-. exact (float_of_int_raise B e' Hx).
Qed.

Lemma mock_places_witness :
  exists ps,
    search_places w_offline (PStr "sightseeing") (PInt 200) (PStr "Hyderabad")
      (PInt 6)
    = Ok (PList ps)
    /\ (List.length ps <= 4)%nat
    /\ Forall (fun p =>
                 exists fee,
                   py_getitem_str p "entry_fee" = Ok (PInt fee)
                   /\ (inject_Z fee <= 0.15 * inject_Z 200)%Q) ps.
Proof.
  destruct (mock_places_at_most_4_within_15_percent w_offline
              (PStr "sightseeing") (PStr "Hyderabad") (PInt 6) 200 eq_refl)
    as (Hret & Hall & _).
  destruct (Hret eq_refl) as [ps Hps]. exists ps. split; [exact Hps|].
  destruct (Hall _ Hps) as (ps' & Heq & Hlen & Hfee).
  injection Heq as <-. split; [exact Hlen|exact Hfee].
Defined.

(** ** The live restaurants *)

Lemma table_cost_lookup (n : Z) :
  match lookup_int n cost_map with
  | Some v => v
  | None => 350
  end = table_cost n.
Proof.
  unfold cost_map, lookup_int, table_cost.
  rewrite (Z.eqb_sym 1 n), (Z.eqb_sym 2 n), (Z.eqb_sym 3 n), (Z.eqb_sym 4 n).
  destruct (n =? 1), (n =? 2), (n =? 3), (n =? 4); reflexivity.
Qed.

Lemma table_cost_values (n : Z) : In (table_cost n) [150; 350; 600; 1200].
Proof.
  unfold table_cost.
  destruct (n =? 1), (n =? 2), (n =? 3), (n =? 4); simpl; tauto.
Qed.

(** One turn of the loop of [search_restaurants] on a listed place. *)
Lemma restaurants_loop_step (area : pyval) (B : Z) (x : spec_float)
  (p : pyval) (ps acc : list pyval) :
  float_of_int B = Ok x ->
  listed_place p ->
  restaurants_loop area (PInt B) (p :: ps) acc
  = if affordable B p
    then restaurants_loop area (PInt B) ps (acc ++ [restaurant_entry area p])%list
    else restaurants_loop area (PInt B) ps acc.
Proof.
  intros Hx (d & -> & Hlev).
  cbn [restaurants_loop py_get bind].
  assert (Hcost :
    int_dict_get cost_map
      (match lookup "price_level" d with Some v => v | None => PInt 2 end) 350
    = Ok (cost_of_place (PDict d))).
  { unfold cost_of_place, level_of.
    destruct Hlev as [Hn|[n Hn]]; rewrite Hn; [reflexivity|].
    unfold int_dict_get, int_key. cbn [bind]. rewrite table_cost_lookup.
    reflexivity. }
  rewrite Hcost. cbn [bind].
  unfold py_mul_float. rewrite Hx. cbn [bind].
  rewrite (gt_45_percent_exact (cost_of_place (PDict d)) B x
             (table_cost_values _) Hx).
  unfold affordable.
  destruct (Z.ltb_spec (45 * B) (100 * cost_of_place (PDict d)));
    destruct (Z.leb_spec (100 * cost_of_place (PDict d)) (45 * B)); try lia.
  - reflexivity.
  - unfold restaurant_entry, field, level_of.
    destruct Hlev as [Hn|[n Hn]]; rewrite Hn; reflexivity.
Qed.

(** The loop keeps the affordable places, in order. *)
Lemma restaurants_loop_filter (area : pyval) (B : Z) (x : spec_float)
  (ps : list pyval) :
  float_of_int B = Ok x ->
  Forall listed_place ps ->
  forall acc,
    restaurants_loop area (PInt B) ps acc
    = Ok (acc ++ map (restaurant_entry area) (filter (affordable B) ps))%list.
Proof.
  intros Hx HF. induction HF as [|p ps Hp HF IH]; intros acc.
  - simpl. rewrite app_nil_r. reflexivity.
  - rewrite (restaurants_loop_step area B x p ps acc Hx Hp).
    cbn [filter]. destruct (affordable B p).
    + rewrite IH. cbn [map]. rewrite <- app_assoc. reflexivity.
    + apply IH.
Qed.

Lemma Forall_slice_to {A : Type} (P : A -> Prop) (l : list A) (n : Z) :
  Forall P l -> Forall P (slice_to l n).
Proof.
  intros H. rewrite Forall_forall in *. intros a Ha. apply H.
  unfold slice_to in Ha. destruct (0 <=? n); apply In_firstn in Ha; exact Ha.
Qed.

Lemma slice_to_length {A : Type} (l : list A) (n : Z) :
  0 <= n -> (List.length (slice_to l n) <= Z.to_nat n)%nat.
Proof.
  intros Hn. unfold slice_to.
  replace (0 <=? n) with true by (symmetry; apply Z.leb_le; exact Hn).
  apply firstn_le_length.
Qed.

(** C1, as the code has it. On the live path, for a response that lists
    places and a budget [B] below [2^1023] in magnitude, [search_restaurants]
    looks at the first [limit] entries of the response only, keeps those
    whose table cost is at most 45% of [B], and gives the mock list when it
    kept none; so the result holds at most [limit] entries, each within 45%
    of the budget. *)
Theorem live_restaurants_filter_first_limit :
  forall (w : world) (area cuisine : string) (B limit : Z) (data : pyval)
         (places : list pyval),
    GOOGLE_API_KEY w <> "" ->
    Z.abs B < 2 ^ 1023 ->
    http_get_json w (PLACES_BASE ++ "/textsearch/json")
      [("query", cuisine ++ " restaurant in " ++ area ++ " Hyderabad");
       ("key", GOOGLE_API_KEY w); ("type", "restaurant")] = Ok data ->
    py_get data "results" (PList []) = Ok (PList places) ->
    Forall listed_place places ->
    let kept := filter (affordable B) (slice_to places limit) in
    search_restaurants w (PStr area) (PInt B) (PStr cuisine) (PInt limit)
    = match kept with
      | [] => _mock_restaurants (PStr area) (PInt B)
      | _ :: _ => Ok (PList (map (restaurant_entry (PStr area)) kept))
      end
    /\ Forall (fun p =>
                 (inject_Z (cost_of_place p) <= 0.45 * inject_Z B)%Q) kept
    /\ (0 <= limit -> (List.length kept <= Z.to_nat limit)%nat).
Proof.
  intros w area cuisine B limit data places Hkey HB Hget Hres Hlisted kept.
  split; [|split].
  - unfold search_restaurants. rewrite (no_key_present _ Hkey).
    cbn [py_str]. rewrite Hget. cbn [bind]. rewrite Hres. cbn [bind].
    cbn [py_slice_to slice_bound bind slice_opt].
    rewrite (restaurants_loop_filter (PStr area) B (B64.of_Z B)
               (slice_to places limit) (float_of_int_ok B HB)
               (Forall_slice_to _ _ _ Hlisted)).
    cbn [bind app]. fold kept. destruct kept; reflexivity.
  - apply Forall_forall. intros p Hp. apply filter_In in Hp.
    destruct Hp as [_ Hp]. unfold affordable in Hp. apply Z.leb_le in Hp.
    apply (Qle_scaled _ B 45 100). lia.
  - intros Hl. subst kept.
    pose proof (filter_length_le (affordable B) (slice_to places limit)).
    pose proof (slice_to_length places limit Hl). lia.
Qed.

Lemma live_restaurants_witness :
  let kept := filter (affordable 1000) (slice_to [costly_place; cheap_place] 2) in
  search_restaurants w_two_places (PStr "Abids") (PInt 1000) (PStr "biryani") (PInt 2)
  = match kept with
    | [] => _mock_restaurants (PStr "Abids") (PInt 1000)
    | _ :: _ => Ok (PList (map (restaurant_entry (PStr "Abids")) kept))
    end
  /\ Forall (fun p =>
               (inject_Z (cost_of_place p) <= 0.45 * inject_Z 1000)%Q) kept
  /\ (0 <= 2 -> (List.length kept <= Z.to_nat 2)%nat).
Proof.
  apply (live_restaurants_filter_first_limit w_two_places "Abids" "biryani"
           1000 2 (PDict [("results", PList [costly_place; cheap_place])])).
  - discriminate.
  - reflexivity.
  - reflexivity.
  - reflexivity.
  - repeat constructor; eexists; (split; [reflexivity|right; eexists; reflexivity]).
Defined.

(** C1, as stated, fails. With a limit of 1 and a response that lists a
    costly place before a cheap one, the cheap place survives the filter, so
    the first entry of the filtered list is its record; the code looks at
    the costly place only and gives the mock list. *)
Lemma live_restaurants_not_first_of_filtered :
  search_restaurants w_two_places (PStr "Abids") (PInt 1000) (PStr "") (PInt 1)
  = _mock_restaurants (PStr "Abids") (PInt 1000)
  /\ live_result_as_claimed (PStr "Abids") 1000 1 [costly_place; cheap_place]
     = Ok (PList [restaurant_entry (PStr "Abids") cheap_place])
  /\ search_restaurants w_two_places (PStr "Abids") (PInt 1000) (PStr "") (PInt 1)
     <> live_result_as_claimed (PStr "Abids") 1000 1 [costly_place; cheap_place].
Proof.
  assert (H1 : search_restaurants w_two_places (PStr "Abids") (PInt 1000)
                 (PStr "") (PInt 1)
               = _mock_restaurants (PStr "Abids") (PInt 1000))
    by (vm_compute; reflexivity).
  assert (H2 : live_result_as_claimed (PStr "Abids") 1000 1
                 [costly_place; cheap_place]
               = Ok (PList [restaurant_entry (PStr "Abids") cheap_place]))
    by (vm_compute; reflexivity).
  split; [exact H1|]. split; [exact H2|].
  rewrite H1, H2.
  rewrite (mock_restaurants_exact _ 1000 (B64.of_Z 1000)) by reflexivity.
  intros H. apply (f_equal (fun r => match r with
                                     | Ok (PList l) => List.length l
                                     | _ => O
                                     end)) in H.
  vm_compute in H. discriminate.
Qed.

(** ** Movies *)

Lemma estimate_ticket_price_int (max_price : Z) :
  _estimate_ticket_price (PInt max_price) = Ok (price_tier max_price).
Proof.
  unfold _estimate_ticket_price, price_tier, py_ge_int. cbn [bind].
  destruct (400 <=? max_price); [reflexivity|].
  destruct (250 <=? max_price); reflexivity.
Qed.

Lemma price_tier_low (max_price : Z) : max_price < 150 -> price_tier max_price = 150.
Proof.
  intros H. unfold price_tier.
  destruct (Z.leb_spec 400 max_price); [lia|].
  destruct (Z.leb_spec 250 max_price); [lia|reflexivity].
Qed.

Lemma price_tier_within (max_price : Z) :
  price_tier max_price <= max_price <-> 150 <= max_price.
Proof.
  unfold price_tier.
  destruct (Z.leb_spec 400 max_price); [lia|].
  destruct (Z.leb_spec 250 max_price); lia.
Qed.

(** Every record the loop of [search_movies] adds carries the tier of the
    ceiling as its ticket price. *)
Lemma movies_loop_prices (genre : pyval) (max_price : Z) (ms : list pyval) :
  forall acc rs,
    Forall (fun r => py_getitem_str r "ticket_price"
                     = Ok (PInt (price_tier max_price))) acc ->
    movies_loop genre (PInt max_price) ms acc = Ok rs ->
    Forall (fun r => py_getitem_str r "ticket_price"
                     = Ok (PInt (price_tier max_price))) rs.
Proof.
  induction ms as [|m ms IH]; intros acc rs Hacc Hrun.
  - simpl in Hrun. injection Hrun as <-. exact Hacc.
  - cbn [movies_loop] in Hrun.
    destruct (py_get m "name" (PStr "Unknown")) as [title|e]; [|discriminate].
    cbn [bind] in Hrun.
    destruct (py_get m "rating" (PStr "7.5/10")) as [rating|e]; [|discriminate].
    cbn [bind] in Hrun.
    rewrite estimate_ticket_price_int in Hrun. cbn [bind] in Hrun.
    destruct (py_get m "duration" (PStr "2h 30m")) as [duration|e]; [|discriminate].
    cbn [bind] in Hrun.
    apply IH in Hrun; [exact Hrun|].
    apply Forall_app. split; [exact Hacc|].
    constructor; [reflexivity|constructor].
Qed.

Lemma movie_prices (m : pyval) :
  In m movies ->
  exists c, py_getitem_str m "ticket_price" = Ok (PInt c) /\ 200 <= c.
Proof.
  unfold movies. intros H.
  repeat (destruct H as [<-|H]; [eexists; split; [reflexivity|lia]|]).
  destruct H.
Qed.

(** The mock movies are those of the catalogue whose ticket price is at most
    the budget. *)
Lemma mock_movies_exact (genre : pyval) (B : Z) :
  _mock_movies genre (PInt B)
  = Ok (PList (firstn 3 (filter (fun m => int_field "ticket_price" m <=? B)
                           movies))).
Proof.
  unfold _mock_movies.
  rewrite (filter_res_pure _ (fun m => int_field "ticket_price" m <=? B));
    [reflexivity|].
  intros m Hm. destruct (movie_prices m Hm) as (c & Hget & _).
  rewrite Hget. cbn [bind]. unfold int_field. rewrite Hget. reflexivity.
Qed.

Lemma filter_none {A : Type} (f : A -> bool) (l : list A) :
  (forall x, In x l -> f x = false) -> filter f l = [].
Proof.
  induction l as [|a l IH]; intros H; [reflexivity|].
  simpl. rewrite (H a (or_introl eq_refl)).
  apply IH. intros x Hx. apply H. right. exact Hx.
Qed.

Lemma mock_movies_low (genre : pyval) (B : Z) :
  B < 200 -> _mock_movies genre (PInt B) = Ok (PList []).
Proof.
  intros HB. rewrite mock_movies_exact.
  rewrite filter_none; [reflexivity|].
  intros m Hm. destruct (movie_prices m Hm) as (c & Hget & Hc).
  unfold int_field. rewrite Hget. apply Z.leb_gt. lia.
Qed.

(** C9. The estimate of the ticket price has three tiers, so it is at most
    the ceiling exactly when the ceiling is at least 150; below 150 the
    estimate is 150, and every record [search_movies] returns on the live
    path carries a ticket price above the ceiling. *)
Theorem ticket_price_estimate_ignores_low_ceiling :
  forall max_ticket_price : Z,
    (exists p,
        _estimate_ticket_price (PInt max_ticket_price) = Ok p
        /\ p = (if 400 <=? max_ticket_price then 350
                else if 250 <=? max_ticket_price then 220 else 150)
        /\ (p <= max_ticket_price <-> 150 <= max_ticket_price))
    /\ (max_ticket_price < 150 ->
        _estimate_ticket_price (PInt max_ticket_price) = Ok 150
        /\ forall (w : world) (genre limit v : pyval),
             SERPAPI_KEY w <> "" ->
             search_movies w genre (PInt max_ticket_price) limit = Ok v ->
             exists rs,
               v = PList rs
               /\ Forall (fun r =>
                            exists p,
                              py_getitem_str r "ticket_price" = Ok (PInt p)
                              /\ max_ticket_price < p) rs).
Proof.
  intros mx. split.
  - exists (price_tier mx). split; [apply estimate_ticket_price_int|].
    split; [reflexivity|apply price_tier_within].
  - intros Hlow. split.
    + rewrite estimate_ticket_price_int, price_tier_low by exact Hlow.
      reflexivity.
    + intros w genre limit v Hkey Hrun.
      unfold search_movies in Hrun. rewrite (no_key_present _ Hkey) in Hrun.
      destruct (http_get_json w SERPAPI_BASE _) as [data|e]; [|discriminate].
      cbn [bind] in Hrun.
      destruct (py_get data "showtimes" (PList [])) as [found|e]; [|discriminate].
      cbn [bind] in Hrun.
      destruct (py_slice_to found limit) as [ms|e]; [|discriminate].
      cbn [bind] in Hrun.
      destruct (movies_loop genre (PInt mx) ms []) as [rs|e] eqn:Hloop;
        [|discriminate].
      cbn [bind] in Hrun.
      apply movies_loop_prices in Hloop; [|constructor].
      rewrite (price_tier_low mx Hlow) in Hloop.
      destruct (py_truthy (PList rs)).
      * exists rs. split; [congruence|].
        apply Forall_forall. intros r Hr. rewrite Forall_forall in Hloop.
        exists 150. split; [apply Hloop; exact Hr|exact Hlow].
      * rewrite mock_movies_low in Hrun by lia.
        exists []. split; [congruence|constructor].
Qed.

Lemma ticket_price_witness :
  _estimate_ticket_price (PInt 100) = Ok 150
  /\ exists rs,
       search_movies w_one_showtime (PStr "comedy") (PInt 100) (PInt 5)
       = Ok (PList rs)
       /\ rs <> []
       /\ Forall (fun r =>
                    exists p,
                      py_getitem_str r "ticket_price" = Ok (PInt p)
                      /\ 100 < p) rs.
Proof.
  destruct (ticket_price_estimate_ignores_low_ceiling 100) as [_ H].
  destruct (H eq_refl) as [H1 H2]. split; [exact H1|].
  destruct (search_movies w_one_showtime (PStr "comedy") (PInt 100) (PInt 5))
    as [v|e] eqn:Hrun; [|vm_compute in Hrun; discriminate].
  destruct (H2 w_one_showtime (PStr "comedy") (PInt 5) v) as (rs & -> & Hrs).
  - discriminate.
  - exact Hrun.
  - exists rs. split; [reflexivity|]. split; [|exact Hrs].
    intros ->. vm_compute in Hrun. discriminate.
Defined.

(** *** Entry fees *)

Lemma fee_lookup_none (s : string) (m : list (string * Z)) :
  (forall k v, In (k, v) m -> contains k s = false) -> fee_lookup s m = None.
Proof.
  induction m as [|[k v] m IH]; intros H; [reflexivity|].
  simpl. rewrite (H k v (or_introl eq_refl)).
  apply IH. intros k' v' Hin. apply (H k' v'). right. exact Hin.
Qed.

Lemma fee_lookup_first (s : string) (before after : list (string * Z))
  (k : string) (v : Z) :
  (forall k' v', In (k', v') before -> contains k' s = false) ->
  contains k s = true ->
  fee_lookup s (before ++ (k, v) :: after) = Some v.
Proof.
  induction before as [|[k0 v0] before IH]; intros Hb Hk.
  - simpl. rewrite Hk. reflexivity.
  - simpl. rewrite (Hb k0 v0 (or_introl eq_refl)).
    apply IH; [|exact Hk]. intros k' v' Hin. apply (Hb k' v'). right. exact Hin.
Qed.

Lemma fee_lookup_found (s : string) (m : list (string * Z)) (v : Z) :
  fee_lookup s m = Some v -> exists k, In (k, v) m /\ contains k s = true.
Proof.
  induction m as [|[k0 v0] m IH]; intros H; [discriminate|].
  simpl in H. destruct (contains k0 s) eqn:Hc.
  - injection H as <-. exists k0. split; [left; reflexivity|exact Hc].
  - destruct (IH H) as (k & Hin & Hk). exists k. split; [right; exact Hin|exact Hk].
Qed.

Lemma fee_lookup_some (s : string) (m : list (string * Z)) (k : string) (v : Z) :
  In (k, v) m -> contains k s = true -> exists v', fee_lookup s m = Some v'.
Proof.
  induction m as [|[k0 v0] m IH]; intros Hin Hk; [destruct Hin|].
  simpl. destruct (contains k0 s) eqn:Hc; [eexists; reflexivity|].
  destruct Hin as [Heq|Hin]; [|apply IH; assumption].
  injection Heq as -> ->. congruence.
Qed.

(** C8, as the code has it. The table has 11 keys; the lookup lowers the
    name and gives the fee of the first key of the table, in the order of
    the table, that the lowered name contains, and 50 when it contains none;
    so a name that contains a key gets the fee of that key whenever the keys
    it contains carry one fee. [Golconda Fort, Hyderabad] gets 35. *)
Theorem entry_fee_of_first_key_contained :
  List.length fee_map = 11%nat
  /\ _estimate_entry_fee (PStr "Golconda Fort, Hyderabad") = Ok 35
  /\ (forall name : string,
        (forall k v, In (k, v) fee_map -> contains k (py_lower name) = false) ->
        _estimate_entry_fee (PStr name) = Ok 50)
  /\ (forall (name : string) (before after : list (string * Z)) (k : string)
             (v : Z),
        fee_map = (before ++ (k, v) :: after)%list ->
        contains k (py_lower name) = true ->
        (forall k' v', In (k', v') before -> contains k' (py_lower name) = false) ->
        _estimate_entry_fee (PStr name) = Ok v)
  /\ (forall (name k : string) (v : Z),
        In (k, v) fee_map ->
        contains k (py_lower name) = true ->
        (forall k' v',
            In (k', v') fee_map -> contains k' (py_lower name) = true -> v' = v) ->
        _estimate_entry_fee (PStr name) = Ok v).
Proof.
  split; [reflexivity|]. split; [reflexivity|].
  unfold _estimate_entry_fee, py_lower_method. cbn [bind].
  split; [|split].
  - intros name H. rewrite (fee_lookup_none _ _ H). reflexivity.
  - intros name before after k v Hmap Hk Hb.
    rewrite Hmap, (fee_lookup_first _ before after k v Hb Hk). reflexivity.
  - intros name k v Hin Hk Hsame.
    destruct (fee_lookup_some _ _ k v Hin Hk) as (v' & Hv').
    rewrite Hv'. destruct (fee_lookup_found _ _ _ Hv') as (k' & Hin' & Hk').
    f_equal. apply (Hsame k' v' Hin' Hk').
Qed.

Lemma entry_fee_witness :
  _estimate_entry_fee (PStr "CHARMINAR, Old City") = Ok 25.
Proof.
  destruct entry_fee_of_first_key_contained as (_ & _ & _ & H & _).
  apply (H "CHARMINAR, Old City" [("golconda", 35)]
           [("ramoji", 1150); ("birla", 0); ("hussain sagar", 0);
            ("lumbini", 50); ("nehru zoo", 80); ("salar jung", 20);
            ("qutb shahi", 15); ("snow world", 799); ("wonderla", 999)]
           "charminar" 25).
  - reflexivity.
  - reflexivity.
  - intros k' v' [Heq|[]]. injection Heq as <- <-. reflexivity.
Defined.

(** C8, as stated, fails. The name [Lumbini Park, Hussain Sagar] contains
    the key [lumbini], whose fee is 50, and the lookup gives 0: the key
    [hussain sagar] comes first in the table. *)
Lemma entry_fee_not_of_every_key_contained :
  In ("lumbini", 50) fee_map
  /\ contains "lumbini" (py_lower "Lumbini Park, Hussain Sagar") = true
  /\ _estimate_entry_fee (PStr "Lumbini Park, Hussain Sagar") = Ok 0.
Proof.
  split; [simpl; tauto|]. split; reflexivity.
Qed.

(** *** Travel *)
















(** *** The executor *)

(** C4. With no Google key, the executor called for [get_travel_info] with
    origin [A] and destination [B] returns the serialized record of the
    heuristic (8.0 km, 20 minutes, fare 130, mode Uber/Ola), whose text is
    [heuristic_json]; and [get_travel_info] returns that record whatever its
    arguments. *)
Theorem executor_travel_without_key :
  forall w : world,
    GOOGLE_API_KEY w = "" ->
    execute_tool w "get_travel_info"
      [("origin", PStr "A"); ("destination", PStr "B")]
    = Ok heuristic_json
    /\ heuristic_json
       = Json.dumps false
           (PDict [("distance_km", PFloat (B64.of_Z 8));
                   ("duration_mins", PInt 20);
                   ("cab_fare_inr", PInt 130);
                   ("mode", PStr "Uber/Ola")])
    /\ (forall origin destination : pyval,
          get_travel_info w origin destination
          = Ok (PDict [("distance_km", PFloat (B64.of_Z 8));
                       ("duration_mins", PInt 20);
                       ("cab_fare_inr", PInt 130);
                       ("mode", PStr "Uber/Ola")])).
Proof.
  intros [gk sk get] Hkey. simpl in Hkey. subst gk. split; [|split].
  - vm_compute. reflexivity.
  - vm_compute. reflexivity.
  - intros origin destination. reflexivity.
Qed.

Lemma executor_travel_witness :
  execute_tool w_offline "get_travel_info"
    [("origin", PStr "A"); ("destination", PStr "B")]
  = Ok heuristic_json.
Proof.
  exact (proj1 (executor_travel_without_key w_offline eq_refl)).
Defined.

Ltac byte_differs :=
  repeat match goal with
         | |- context [byte_of ?c =? ?k] =>
             replace (byte_of c =? k) with false
               by (symmetry; apply Z.eqb_neq; lia)
         end.

Lemma escape_plain (s : string) :
  plain s = true -> concat_map Json.escape_byte s = s.
Proof.
  induction s as [|c s IH]; intros H; [reflexivity|].
  simpl in H. apply andb_true_iff in H. destruct H as [Hc Hs].
  simpl. rewrite (IH Hs).
  unfold plain_char in Hc.
  apply andb_true_iff in Hc. destruct Hc as [Hc H92].
  apply andb_true_iff in Hc. destruct Hc as [H32 H34].
  apply negb_true_iff in H92, H34. apply Z.leb_le in H32.
  apply Z.eqb_neq in H92, H34.
  unfold Json.escape_byte, Json.short_escape. byte_differs.
  replace (byte_of c <? 32) with false by (symmetry; apply Z.ltb_ge; lia).
  reflexivity.
Qed.

Lemma quote_plain (s : string) : plain s = true -> Json.quote false s = quoted s.
Proof.
  intros H. unfold Json.quote, quoted. rewrite (escape_plain s H). reflexivity.
Qed.

Lemma plain_append (a b : string) :
  plain a = true -> plain b = true -> plain (a ++ b) = true.
Proof.
  induction a as [|c a IH]; intros Ha Hb; [exact Hb|].
  simpl in *. apply andb_true_iff in Ha. destruct Ha as [Hc Ha].
  rewrite Hc, (IH Ha Hb). reflexivity.
Qed.

Lemma unknown_tool_result (w : world) (tool_name : string)
  (tool_input : list (string * pyval)) :
  known_tool tool_name = false ->
  tool_result w tool_name tool_input
  = Ok (PDict [("error", PStr ("Unknown tool: " ++ tool_name))]).
Proof.
  unfold known_tool, tool_result. intros H.
  destruct (String.eqb tool_name "search_restaurants"); [discriminate|].
  destruct (String.eqb tool_name "search_movies"); [discriminate|].
  destruct (String.eqb tool_name "search_places"); [discriminate|].
  destruct (String.eqb tool_name "get_travel_info"); [discriminate|].
  reflexivity.
Qed.

(** C5. For a tool name that is none of the four, the executor returns the
    serialized record whose one key [error] holds [Unknown tool: ] followed
    by the name; when the name needs no escape in JSON the text holds the
    name as it is. *)
Theorem executor_unknown_tool :
  forall (w : world) (tool_name : string) (tool_input : list (string * pyval)),
    tool_name <> "search_restaurants" ->
    tool_name <> "search_movies" ->
    tool_name <> "search_places" ->
    tool_name <> "get_travel_info" ->
    execute_tool w tool_name tool_input
    = Ok (Json.dumps false (PDict [("error", PStr ("Unknown tool: " ++ tool_name))]))
    /\ (plain tool_name = true ->
        execute_tool w tool_name tool_input
        = Ok ("{" ++ quoted "error" ++ ": "
                  ++ quoted ("Unknown tool: " ++ tool_name) ++ "}")).
Proof.
  intros w tool_name tool_input H1 H2 H3 H4.
  assert (Hk : known_tool tool_name = false).
  { unfold known_tool.
    destruct (String.eqb_spec tool_name "search_restaurants"); [contradiction|].
    destruct (String.eqb_spec tool_name "search_movies"); [contradiction|].
    destruct (String.eqb_spec tool_name "search_places"); [contradiction|].
    destruct (String.eqb_spec tool_name "get_travel_info"); [contradiction|].
    reflexivity. }
  assert (He : execute_tool w tool_name tool_input
               = Ok (Json.dumps false
                       (PDict [("error", PStr ("Unknown tool: " ++ tool_name))]))).
  { unfold execute_tool. rewrite (unknown_tool_result w _ _ Hk). reflexivity. }
  split; [exact He|].
  intros Hp. rewrite He. cbn [Json.dumps].
  rewrite (quote_plain ("Unknown tool: " ++ tool_name))
    by (apply plain_append; [reflexivity|exact Hp]).
  reflexivity.
Qed.

Lemma executor_unknown_tool_witness :
  execute_tool w_offline "book_cab" []
  = Ok ("{" ++ quoted "error" ++ ": " ++ quoted "Unknown tool: book_cab" ++ "}").
Proof.
  refine (proj2 (executor_unknown_tool w_offline "book_cab" [] _ _ _ _) eq_refl);
    discriminate.
Defined.

Lemma unexpected_keyword_raises (w : world) (tool_name : string)
  (tool_input : list (string * pyval)) (sig : signature) (k : string) :
  signature_of tool_name = Some sig ->
  first_unexpected sig tool_input = Some k ->
  tool_result w tool_name tool_input
  = Raise (Exn TypeError
             (tool_name ++ "() got an unexpected keyword argument '" ++ k ++ "'")).
Proof.
  unfold signature_of, tool_result. intros Hs Hk.
  destruct (String.eqb_spec tool_name "search_restaurants") as [->|_].
  { injection Hs as <-. unfold bind_kwargs. rewrite Hk. reflexivity. }
  destruct (String.eqb_spec tool_name "search_movies") as [->|_].
  { injection Hs as <-. unfold bind_kwargs. rewrite Hk. reflexivity. }
  destruct (String.eqb_spec tool_name "search_places") as [->|_].
  { injection Hs as <-. unfold bind_kwargs. rewrite Hk. reflexivity. }
  destruct (String.eqb_spec tool_name "get_travel_info") as [->|_].
  { injection Hs as <-. unfold bind_kwargs. rewrite Hk. reflexivity. }
  discriminate.
Qed.

(** C6. For every tool name and every argument mapping the executor returns
    a string and raises nothing: the serialized result when the call
    succeeds, and the serialized error record with the message of the
    exception when the call raises; a keyword that names no parameter of the
    tool is one such case. *)
Theorem executor_never_raises :
  forall (w : world) (tool_name : string) (tool_input : list (string * pyval)),
    exists payload : string,
      execute_tool w tool_name tool_input = Ok payload
      /\ match tool_result w tool_name tool_input with
         | Ok result => payload = Json.dumps false result
         | Raise e => payload = error_json (exn_msg e)
         end
      /\ (forall sig k,
            signature_of tool_name = Some sig ->
            first_unexpected sig tool_input = Some k ->
            payload
            = error_json (tool_name ++ "() got an unexpected keyword argument '"
                          ++ k ++ "'")).
Proof.
  intros w tool_name tool_input.
  unfold execute_tool, try_except, error_json.
  destruct (tool_result w tool_name tool_input) as [result|e] eqn:Hres.
  - exists (Json.dumps false result). cbn [bind]. split; [reflexivity|].
    split; [reflexivity|].
    intros sig k Hs Hk.
    rewrite (unexpected_keyword_raises w _ _ sig k Hs Hk) in Hres. discriminate.
  - exists (Json.dumps true (PDict [("error", PStr (exn_msg e))])).
    cbn [bind is_Exception]. split; [reflexivity|]. split; [reflexivity|].
    intros sig k Hs Hk.
    rewrite (unexpected_keyword_raises w _ _ sig k Hs Hk) in Hres.
    injection Hres as <-. reflexivity.
Qed.

Lemma executor_never_raises_witness :
  execute_tool w_offline "search_places"
    [("max_entry_fee", PInt 200); ("city", PStr "Hyderabad")]
  = Ok ("{" ++ quoted "error" ++ ": "
            ++ quoted "search_places() got an unexpected keyword argument 'city'"
            ++ "}").
Proof.
  destruct (executor_never_raises w_offline "search_places"
              [("max_entry_fee", PInt 200); ("city", PStr "Hyderabad")])
    as (payload & Hrun & _ & Hkw).
  rewrite Hrun. f_equal.
  exact (Hkw sig_search_places "city" eq_refl eq_refl).
Defined.

(** C10. With no Google key, [get_travel_info] does not depend on its
    arguments: any two pairs of origin and destination get one and the same
    record. *)
Theorem travel_without_key_is_constant :
  forall (w : world) (origin1 destination1 origin2 destination2 : string),
    GOOGLE_API_KEY w = "" ->
    exists record : pyval,
      get_travel_info w (PStr origin1) (PStr destination1) = Ok record
      /\ get_travel_info w (PStr origin2) (PStr destination2) = Ok record.
Proof.
  intros w o1 d1 o2 d2 Hkey. unfold get_travel_info.
  rewrite Hkey, no_key_empty.
  exists (_mock_travel (PStr o1) (PStr d1)). split; reflexivity.
Qed.

Lemma travel_constant_witness :
  exists record : pyval,
    get_travel_info w_offline (PStr "Abids") (PStr "Charminar") = Ok record
    /\ get_travel_info w_offline (PStr "Gachibowli") (PStr "Golconda Fort")
       = Ok record.
Proof.
  exact (travel_without_key_is_constant w_offline "Abids" "Charminar"
           "Gachibowli" "Golconda Fort" eq_refl).
Defined.

(** * Further properties *)

(** ** The mock lists, exactly *)

Lemma firstn_short {A : Type} (n : nat) (l : list A) :
  (List.length l <= n)%nat -> firstn n l = l.
Proof. intros H. apply firstn_all2. exact H. Qed.

Lemma within_half_empty (B : Z) :
  filter (within_half B) all_restaurants = [] <-> B < 400.
Proof.
  split.
  - intros H.
    assert (Hn : within_half B
                   (restaurant "Shah Ghouse Cafe" "Tolichowki, Hyderabad"
                      f_4_5 200 "https://maps.google.com/?q=Shah+Ghouse+Hyderabad")
                 = false).
    { destruct (within_half B _) eqn:Hw; [|reflexivity].
      assert (Hin : In (restaurant "Shah Ghouse Cafe" "Tolichowki, Hyderabad"
                          f_4_5 200
                          "https://maps.google.com/?q=Shah+Ghouse+Hyderabad")
                      (filter (within_half B) all_restaurants)).
      { apply filter_In. split; [|exact Hw]. unfold all_restaurants. simpl. tauto. }
      rewrite H in Hin. destruct Hin. }
    unfold within_half in Hn. change (int_field "estimated_cost" _) with 200 in Hn.
    apply Z.leb_gt in Hn. lia.
  - intros HB. apply filter_none. intros r Hr.
    destruct (restaurant_costs r Hr) as (c & Hget & Hc).
    unfold within_half, int_field. rewrite Hget. apply Z.leb_gt.
    simpl in Hc. lia.
Qed.

(** X1. Without a Google key and for a budget [B] below [2^1023] in
    magnitude, [search_restaurants] returns the entries of the catalogue
    whose cost is at most half of [B], in the order of the catalogue, cut
    after the fourth; the list is empty exactly when [B < 400]. *)
Theorem mock_restaurants_first_four_affordable :
  forall (w : world) (area cuisine limit : pyval) (B : Z),
    GOOGLE_API_KEY w = "" ->
    Z.abs B < 2 ^ 1023 ->
    search_restaurants w area (PInt B) cuisine limit
    = Ok (PList (firstn 4 (filter (fun r => 2 * int_field "estimated_cost" r <=? B)
                             all_restaurants)))
    /\ (firstn 4 (filter (fun r => 2 * int_field "estimated_cost" r <=? B)
                    all_restaurants) = [] <-> B < 400).
Proof.
  intros w area cuisine limit B Hkey HB. split.
  - unfold search_restaurants. rewrite Hkey, no_key_empty.
    apply (mock_restaurants_exact area B (B64.of_Z B)).
    apply float_of_int_ok. exact HB.
  - change (fun r => 2 * int_field "estimated_cost" r <=? B) with (within_half B).
    rewrite <- within_half_empty. split.
    + intros H. destruct (filter (within_half B) all_restaurants); [reflexivity|].
      discriminate.
    + intros ->. reflexivity.
Qed.

Lemma mock_restaurants_first_four_witness :
  search_restaurants w_offline (PStr "Abids") (PInt 1400) (PStr "") (PInt 1)
  = Ok (PList (firstn 4 (filter (fun r => 2 * int_field "estimated_cost" r <=? 1400)
                           all_restaurants))).
Proof.
  exact (proj1 (mock_restaurants_first_four_affordable w_offline (PStr "Abids")
                  (PStr "") (PInt 1) 1400 eq_refl eq_refl)).
Defined.

Lemma within_15_percent_empty (B : Z) :
  filter (within_15_percent B) all_places = [] <-> B < 0.
Proof.
  split.
  - intros H.
    assert (Hn : within_15_percent B
                   (place "Hussain Sagar Lake & Tank Bund"
                      "Tank Bund Road, Hyderabad" f_4_3 0 60
                      "https://maps.google.com/?q=Hussain+Sagar+Lake") = false).
    { destruct (within_15_percent B _) eqn:Hw; [|reflexivity].
      assert (Hin : In (place "Hussain Sagar Lake & Tank Bund"
                          "Tank Bund Road, Hyderabad" f_4_3 0 60
                          "https://maps.google.com/?q=Hussain+Sagar+Lake")
                      (filter (within_15_percent B) all_places)).
      { apply filter_In. split; [|exact Hw]. unfold all_places. simpl. tauto. }
      rewrite H in Hin. destruct Hin. }
    unfold within_15_percent in Hn. change (int_field "entry_fee" _) with 0 in Hn.
    apply Z.leb_gt in Hn. lia.
  - intros HB. apply filter_none. intros r Hr.
    destruct (place_fees r Hr) as (c & Hget & Hc).
    unfold within_15_percent, int_field. rewrite Hget. apply Z.leb_gt.
    simpl in Hc. lia.
Qed.

(** X2. Without a Google key and for a budget [B] below [2^1023] in
    magnitude, [search_places] returns the places of the catalogue whose
    entry fee is at most 15% of [B], in the order of the catalogue, cut after
    the fourth; the list is empty exactly when [B] is negative. *)
Theorem mock_places_first_four_affordable :
  forall (w : world) (interests area limit : pyval) (B : Z),
    GOOGLE_API_KEY w = "" ->
    Z.abs B < 2 ^ 1023 ->
    search_places w interests (PInt B) area limit
    = Ok (PList (firstn 4 (filter (fun p => 100 * int_field "entry_fee" p <=? 15 * B)
                             all_places)))
    /\ (firstn 4 (filter (fun p => 100 * int_field "entry_fee" p <=? 15 * B)
                    all_places) = [] <-> B < 0).
Proof.
  intros w interests area limit B Hkey HB. split.
  - unfold search_places. rewrite Hkey, no_key_empty.
    apply (mock_places_exact interests B (B64.of_Z B)).
    apply float_of_int_ok. exact HB.
  - change (fun p => 100 * int_field "entry_fee" p <=? 15 * B)
      with (within_15_percent B).
    rewrite <- within_15_percent_empty. split.
    + intros H. destruct (filter (within_15_percent B) all_places); [reflexivity|].
      discriminate.
    + intros ->. reflexivity.
Qed.

Lemma mock_places_first_four_witness :
  search_places w_offline (PStr "parks") (PInt 100) (PStr "Hyderabad") (PInt 6)
  = Ok (PList (firstn 4 (filter (fun p => 100 * int_field "entry_fee" p <=? 15 * 100)
                           all_places))).
Proof.
  exact (proj1 (mock_places_first_four_affordable w_offline (PStr "parks")
                  (PStr "Hyderabad") (PInt 6) 100 eq_refl eq_refl)).
Defined.

Lemma within_budget_empty (B : Z) :
  filter (within_budget B) movies = [] <-> B < 200.
Proof.
  split.
  - intros H.
    assert (Hn : within_budget B
                   (movie "INOX GVK One – Matinee Show"
                      "INOX GVK One, Banjara Hills" "Comedy" "7.2/10" 200
                      "1h 55m") = false).
    { destruct (within_budget B _) eqn:Hw; [|reflexivity].
      assert (Hin : In (movie "INOX GVK One – Matinee Show"
                          "INOX GVK One, Banjara Hills" "Comedy" "7.2/10" 200
                          "1h 55m")
                      (filter (within_budget B) movies)).
      { apply filter_In. split; [|exact Hw]. unfold movies. simpl. tauto. }
      rewrite H in Hin. destruct Hin. }
    unfold within_budget in Hn. change (int_field "ticket_price" _) with 200 in Hn.
    apply Z.leb_gt in Hn. lia.
  - intros HB. apply filter_none. intros m Hm.
    destruct (movie_prices m Hm) as (c & Hget & Hc).
    unfold within_budget, int_field. rewrite Hget. apply Z.leb_gt. lia.
Qed.

(** X3. Without a search key, [search_movies] returns for every integer
    budget [B]: the movies of the catalogue whose ticket price is at most
    [B], in the order of the catalogue (the cut after the third removes
    none), so at most three, each within the budget; the list is empty
    exactly when [B < 200]. *)
Theorem mock_movies_within_budget :
  forall (w : world) (preferred_genre limit : pyval) (B : Z),
    SERPAPI_KEY w = "" ->
    exists ms,
      search_movies w preferred_genre (PInt B) limit = Ok (PList ms)
      /\ ms = filter (fun m => int_field "ticket_price" m <=? B) movies
      /\ (List.length ms <= 3)%nat
      /\ Forall (fun m =>
                   exists p,
                     py_getitem_str m "ticket_price" = Ok (PInt p) /\ p <= B) ms
      /\ (ms = [] <-> B < 200).
Proof.
  intros w genre limit B Hkey.
  exists (filter (within_budget B) movies).
  assert (Hlen : (List.length (filter (within_budget B) movies) <= 3)%nat).
  { apply (Nat.le_trans _ _ _ (filter_length_le _ _)). reflexivity. }
  split; [|split; [reflexivity|split; [exact Hlen|split]]].
  - unfold search_movies. rewrite Hkey, no_key_empty.
    rewrite mock_movies_exact. fold (within_budget B).
    rewrite (firstn_short 3 _ Hlen). reflexivity.
  - apply Forall_forall. intros m Hm. apply filter_In in Hm.
    destruct Hm as [Hin Hle]. destruct (movie_prices m Hin) as (c & Hget & _).
    exists c. split; [exact Hget|].
    unfold within_budget, int_field in Hle. rewrite Hget in Hle.
    apply Z.leb_le. exact Hle.
  - apply within_budget_empty.
Qed.

Lemma mock_movies_witness :
  exists ms,
    search_movies w_offline (PStr "comedy") (PInt 320) (PInt 5) = Ok (PList ms)
    /\ ms = filter (fun m => int_field "ticket_price" m <=? 320) movies.
Proof.
  destruct (mock_movies_within_budget w_offline (PStr "comedy") (PInt 5) 320
              eq_refl) as (ms & H1 & H2 & _).
  exists ms. split; [exact H1|exact H2].
Defined.

(** ** The live places and movies *)











(** ** How many records a search returns *)

Lemma mock_restaurants_length (area budget v : pyval) :
  _mock_restaurants area budget = Ok v ->
  exists rs, v = PList rs /\ (List.length rs <= 4)%nat.
Proof.
  unfold _mock_restaurants. destruct (filter_res _ all_restaurants) as [kept|e];
    [|discriminate].
  cbn [bind]. intros H. exists (firstn 4 kept).
  split; [congruence|apply firstn_le_length].
Qed.

Lemma mock_movies_length (genre budget v : pyval) :
  _mock_movies genre budget = Ok v ->
  exists rs, v = PList rs /\ (List.length rs <= 3)%nat.
Proof.
  unfold _mock_movies. destruct (filter_res _ movies) as [kept|e];
    [|discriminate].
  cbn [bind]. intros H. exists (firstn 3 kept).
  split; [congruence|apply firstn_le_length].
Qed.

Lemma mock_places_length (interests budget v : pyval) :
  _mock_places interests budget = Ok v ->
  exists rs, v = PList rs /\ (List.length rs <= 4)%nat.
Proof.
  unfold _mock_places. destruct (filter_res _ all_places) as [kept|e];
    [|discriminate].
  cbn [bind]. intros H. exists (firstn 4 kept).
  split; [congruence|apply firstn_le_length].
Qed.

Lemma restaurants_loop_length (area budget : pyval) (ps : list pyval) :
  forall acc rs,
    restaurants_loop area budget ps acc = Ok rs ->
    (List.length rs <= List.length acc + List.length ps)%nat.
Proof.
  induction ps as [|p ps IH]; intros acc rs H.
  - simpl in H. injection H as <-. simpl. lia.
  - cbn [restaurants_loop] in H.
    destruct (py_get p "price_level" (PInt 2)) as [lvl|e]; [|discriminate].
    cbn [bind] in H.
    destruct (int_dict_get cost_map lvl 350) as [c|e]; [|discriminate].
    cbn [bind] in H.
    destruct (py_mul_float budget f_0_45) as [t|e]; [|discriminate].
    cbn [bind] in H.
    destruct (B64.Zgtb c t).
    + apply IH in H. simpl. lia.
    + destruct (py_get p "name" PNone) as [a1|e]; [|discriminate].
      cbn [bind] in H.
      destruct (py_get p "formatted_address" area) as [a2|e]; [|discriminate].
      cbn [bind] in H.
      destruct (py_get p "rating" (PFloat f_4_0)) as [a3|e]; [|discriminate].
      cbn [bind] in H.
      destruct (py_get p "place_id" PNone) as [a4|e]; [|discriminate].
      cbn [bind] in H.
      apply IH in H. rewrite length_app in H. simpl in *. lia.
Qed.

Lemma movies_loop_length (genre ceiling : pyval) (ms : list pyval) :
  forall acc rs,
    movies_loop genre ceiling ms acc = Ok rs ->
    List.length rs = (List.length acc + List.length ms)%nat.
Proof.
  induction ms as [|m ms IH]; intros acc rs H.
  - simpl in H. injection H as <-. simpl. lia.
  - cbn [movies_loop] in H.
    destruct (py_get m "name" (PStr "Unknown")) as [a1|e]; [|discriminate].
    cbn [bind] in H.
    destruct (py_get m "rating" (PStr "7.5/10")) as [a2|e]; [|discriminate].
    cbn [bind] in H.
    destruct (_estimate_ticket_price ceiling) as [a3|e]; [|discriminate].
    cbn [bind] in H.
    destruct (py_get m "duration" (PStr "2h 30m")) as [a4|e]; [|discriminate].
    cbn [bind] in H.
    apply IH in H. rewrite length_app in H. simpl in *. lia.
Qed.

Lemma places_loop_length (area : pyval) (ps : list pyval) :
  forall acc rs,
    places_loop area ps acc = Ok rs ->
    List.length rs = (List.length acc + List.length ps)%nat.
Proof.
  induction ps as [|p ps IH]; intros acc rs H.
  - simpl in H. injection H as <-. simpl. lia.
  - cbn [places_loop] in H.
    destruct (py_get p "name" PNone) as [a1|e]; [|discriminate].
    cbn [bind] in H.
    destruct (py_get p "formatted_address" area) as [a2|e]; [|discriminate].
    cbn [bind] in H.
    destruct (py_get p "rating" (PFloat f_4_0)) as [a3|e]; [|discriminate].
    cbn [bind] in H.
    destruct (py_get p "name" (PStr "")) as [a4|e]; [|discriminate].
    cbn [bind] in H.
    destruct (_estimate_entry_fee a4) as [a5|e]; [|discriminate].
    cbn [bind] in H.
    destruct (py_get p "place_id" PNone) as [a6|e]; [|discriminate].
    cbn [bind] in H.
    apply IH in H. rewrite length_app in H. simpl in *. lia.
Qed.

Lemma py_slice_to_length (found : pyval) (limit : Z) (ps : list pyval) :
  0 <= limit ->
  py_slice_to found (PInt limit) = Ok ps ->
  (List.length ps <= Z.to_nat limit)%nat.
Proof.
  intros Hl. unfold py_slice_to.
  destruct found; try discriminate; cbn [slice_bound bind slice_opt];
    intros H; injection H as <-.
  - rewrite length_map. apply slice_to_length. exact Hl.
  - apply slice_to_length. exact Hl.
Qed.

(** X7. Whatever the key, the response and the other arguments, a search
    called with a limit [n >= 0] that returns gives a list of at most [n]
    records, or of at most 4 (3 for movies) when [n] is smaller: the records
    of the mock list, which is cut at a length of its own and not at the
    limit. *)
Theorem search_results_at_most_limit_or_mock :
  forall (w : world) (n : Z),
    0 <= n ->
    (forall (area budget cuisine v : pyval),
        search_restaurants w area budget cuisine (PInt n) = Ok v ->
        exists rs, v = PList rs
                   /\ (List.length rs <= Nat.max (Z.to_nat n) 4)%nat)
    /\ (forall (genre ceiling v : pyval),
          search_movies w genre ceiling (PInt n) = Ok v ->
          exists rs, v = PList rs
                     /\ (List.length rs <= Nat.max (Z.to_nat n) 3)%nat)
    /\ (forall (interests fee area v : pyval),
          search_places w interests fee area (PInt n) = Ok v ->
          exists rs, v = PList rs
                     /\ (List.length rs <= Nat.max (Z.to_nat n) 4)%nat).
Proof.
  intros w n Hn. split; [|split].
  - intros area budget cuisine v H. unfold search_restaurants in H.
    destruct (no_key (GOOGLE_API_KEY w)).
    { destruct (mock_restaurants_length _ _ _ H) as (rs & -> & Hl).
      exists rs. split; [reflexivity|lia]. }
    destruct (http_get_json w _ _) as [data|e]; [|discriminate].
    cbn [bind] in H.
    destruct (py_get data "results" (PList [])) as [found|e]; [|discriminate].
    cbn [bind] in H.
    destruct (py_slice_to found (PInt n)) as [ps|e] eqn:Hs; [|discriminate].
    cbn [bind] in H.
    destruct (restaurants_loop area budget ps []) as [rs|e] eqn:Hloop;
      [|discriminate].
    cbn [bind] in H. destruct (py_truthy (PList rs)).
    + injection H as <-. exists rs. split; [reflexivity|].
      apply restaurants_loop_length in Hloop.
      apply (py_slice_to_length _ _ _ Hn) in Hs. simpl in Hloop. lia.
    + destruct (mock_restaurants_length _ _ _ H) as (rs' & -> & Hl).
      exists rs'. split; [reflexivity|lia].
  - intros genre ceiling v H. unfold search_movies in H.
    destruct (no_key (SERPAPI_KEY w)).
    { destruct (mock_movies_length _ _ _ H) as (rs & -> & Hl).
      exists rs. split; [reflexivity|lia]. }
    destruct (http_get_json w _ _) as [data|e]; [|discriminate].
    cbn [bind] in H.
    destruct (py_get data "showtimes" (PList [])) as [found|e]; [|discriminate].
    cbn [bind] in H.
    destruct (py_slice_to found (PInt n)) as [ps|e] eqn:Hs; [|discriminate].
    cbn [bind] in H.
    destruct (movies_loop genre ceiling ps []) as [rs|e] eqn:Hloop;
      [|discriminate].
    cbn [bind] in H. destruct (py_truthy (PList rs)).
    + injection H as <-. exists rs. split; [reflexivity|].
      apply movies_loop_length in Hloop.
      apply (py_slice_to_length _ _ _ Hn) in Hs. simpl in Hloop. lia.
    + destruct (mock_movies_length _ _ _ H) as (rs' & -> & Hl).
      exists rs'. split; [reflexivity|lia].
  - intros interests fee area v H. unfold search_places in H.
    destruct (no_key (GOOGLE_API_KEY w)).
    { destruct (mock_places_length _ _ _ H) as (rs & -> & Hl).
      exists rs. split; [reflexivity|lia]. }
    destruct (http_get_json w _ _) as [data|e]; [|discriminate].
    cbn [bind] in H.
    destruct (py_get data "results" (PList [])) as [found|e]; [|discriminate].
    cbn [bind] in H.
    destruct (py_slice_to found (PInt n)) as [ps|e] eqn:Hs; [|discriminate].
    cbn [bind] in H.
    destruct (places_loop area ps []) as [rs|e] eqn:Hloop; [|discriminate].
    cbn [bind] in H. destruct (py_truthy (PList rs)).
    + injection H as <-. exists rs. split; [reflexivity|].
      apply places_loop_length in Hloop.
      apply (py_slice_to_length _ _ _ Hn) in Hs. simpl in Hloop. lia.
    + destruct (mock_places_length _ _ _ H) as (rs' & -> & Hl).
      exists rs'. split; [reflexivity|lia].
Qed.

Lemma search_results_length_witness :
  exists rs,
    search_places w_two_attractions (PStr "film") (PInt 0) (PStr "Hyderabad")
      (PInt 1) = Ok (PList rs)
    /\ (List.length rs <= Nat.max (Z.to_nat 1) 4)%nat.
Proof.
  destruct (search_results_at_most_limit_or_mock w_two_attractions 1)
    as (_ & _ & H); [lia|].
  destruct (search_places w_two_attractions (PStr "film") (PInt 0)
              (PStr "Hyderabad") (PInt 1)) as [v|e] eqn:Hrun;
    [|vm_compute in Hrun; discriminate].
  destruct (H (PStr "film") (PInt 0) (PStr "Hyderabad") v Hrun) as (rs & -> & Hl).
  exists rs. split; [reflexivity|exact Hl].
Defined.

(** ** An empty result *)

Lemma mock_restaurants_empty (area : pyval) (B : Z) :
  _mock_restaurants area (PInt B) = Ok (PList []) -> B < 400.
Proof.
  intros H. destruct (float_of_int B) as [x|e] eqn:Hx.
  - rewrite (mock_restaurants_exact area B x Hx) in H.
    apply within_half_empty.
    destruct (filter (within_half B) all_restaurants); [reflexivity|].
    discriminate.
  - rewrite (mock_restaurants_overflow area B e Hx) in H. discriminate.
Qed.

Lemma mock_places_empty (interests : pyval) (B : Z) :
  _mock_places interests (PInt B) = Ok (PList []) -> B < 0.
Proof.
  intros H. destruct (float_of_int B) as [x|e] eqn:Hx.
  - rewrite (mock_places_exact interests B x Hx) in H.
    apply within_15_percent_empty.
    destruct (filter (within_15_percent B) all_places); [reflexivity|].
    discriminate.
  - rewrite (mock_places_overflow interests B e Hx) in H. discriminate.
Qed.

Lemma mock_movies_empty (genre : pyval) (B : Z) :
  _mock_movies genre (PInt B) = Ok (PList []) -> B < 200.
Proof.
  intros H. rewrite mock_movies_exact in H. fold (within_budget B) in H.
  apply within_budget_empty.
  destruct (filter (within_budget B) movies) as [|a [|b [|c l]]];
    [reflexivity|discriminate..].
Qed.

Lemma truthy_list_nonempty (rs : list pyval) :
  py_truthy (PList rs) = true -> rs <> [].
Proof. destruct rs; [discriminate|intros _; discriminate]. Qed.

(** X8. Whatever the key and the response, a search with an integer budget
    that returns an empty list was given a budget below the cheapest item of
    its mock list: below 400 for restaurants (half of it must cover a cost
    of 200), below 200 for movies, below 0 for places.  So with a budget of
    at least that much a search that returns never returns nothing. *)
Theorem empty_result_means_low_budget :
  forall (w : world) (B : Z),
    (forall area cuisine limit : pyval,
        search_restaurants w area (PInt B) cuisine limit = Ok (PList []) ->
        B < 400)
    /\ (forall genre limit : pyval,
          search_movies w genre (PInt B) limit = Ok (PList []) -> B < 200)
    /\ (forall interests area limit : pyval,
          search_places w interests (PInt B) area limit = Ok (PList []) ->
          B < 0).
Proof.
  intros w B. split; [|split].
  - intros area cuisine limit H. unfold search_restaurants in H.
    destruct (no_key (GOOGLE_API_KEY w)); [exact (mock_restaurants_empty _ _ H)|].
    destruct (http_get_json w _ _) as [data|e]; [|discriminate].
    cbn [bind] in H.
    destruct (py_get data "results" (PList [])) as [found|e]; [|discriminate].
    cbn [bind] in H.
    destruct (py_slice_to found limit) as [ps|e]; [|discriminate].
    cbn [bind] in H.
    destruct (restaurants_loop area (PInt B) ps []) as [rs|e]; [|discriminate].
    cbn [bind] in H. destruct (py_truthy (PList rs)) eqn:Ht.
    + injection H as ->. discriminate.
    + exact (mock_restaurants_empty _ _ H).
  - intros genre limit H. unfold search_movies in H.
    destruct (no_key (SERPAPI_KEY w)); [exact (mock_movies_empty _ _ H)|].
    destruct (http_get_json w _ _) as [data|e]; [|discriminate].
    cbn [bind] in H.
    destruct (py_get data "showtimes" (PList [])) as [found|e]; [|discriminate].
    cbn [bind] in H.
    destruct (py_slice_to found limit) as [ps|e]; [|discriminate].
    cbn [bind] in H.
    destruct (movies_loop genre (PInt B) ps []) as [rs|e]; [|discriminate].
    cbn [bind] in H. destruct (py_truthy (PList rs)) eqn:Ht.
    + injection H as ->. discriminate.
    + exact (mock_movies_empty _ _ H).
  - intros interests area limit H. unfold search_places in H.
    destruct (no_key (GOOGLE_API_KEY w)); [exact (mock_places_empty _ _ H)|].
    destruct (http_get_json w _ _) as [data|e]; [|discriminate].
    cbn [bind] in H.
    destruct (py_get data "results" (PList [])) as [found|e]; [|discriminate].
    cbn [bind] in H.
    destruct (py_slice_to found limit) as [ps|e]; [|discriminate].
    cbn [bind] in H.
    destruct (places_loop area ps []) as [rs|e]; [|discriminate].
    cbn [bind] in H. destruct (py_truthy (PList rs)) eqn:Ht.
    + injection H as ->. discriminate.
    + exact (mock_places_empty _ _ H).
Qed.

Lemma empty_result_witness :
  search_restaurants w_offline (PStr "Abids") (PInt 100) (PStr "") (PInt 5)
  = Ok (PList [])
  /\ 100 < 400.
Proof.
  assert (Hrun : search_restaurants w_offline (PStr "Abids") (PInt 100)
                   (PStr "") (PInt 5) = Ok (PList [])) by reflexivity.
  split; [exact Hrun|].
  destruct (empty_result_means_low_budget w_offline 100) as (H & _ & _).
  exact (H (PStr "Abids") (PStr "") (PInt 5) Hrun).
Defined.

(** ** A response with no entries, and a request that fails *)






(** ** The record of a journey *)

(** X11. Whenever [get_travel_info] returns, with or without a key and
    whatever the response, it returns a record of the four keys
    [distance_km], [duration_mins], [cab_fare_inr] and [mode], in that
    order, with a float as distance, an integer as fare and [Uber/Ola] as
    mode. *)
Theorem travel_record_shape :
  forall (w : world) (origin destination v : pyval),
    get_travel_info w origin destination = Ok v ->
    exists (km : spec_float) (mins : pyval) (fare : Z),
      v = PDict [("distance_km", PFloat km); ("duration_mins", mins);
                 ("cab_fare_inr", PInt fare); ("mode", PStr "Uber/Ola")].
Proof.
  intros w origin destination v H. unfold get_travel_info in H.
  destruct (no_key (GOOGLE_API_KEY w)).
  { injection H as <-. eexists _, _, _. reflexivity. }
  destruct (http_get_json w _ _) as [data|e]; [|discriminate].
  cbn [bind] in H. unfold try_except in H.
  destruct (travel_from_response data) as [r|e] eqn:Hr.
  - injection H as <-. unfold travel_from_response in Hr.
    repeat match type of Hr with
           | bind ?c _ = Ok _ =>
               destruct c; [cbn [bind] in Hr|discriminate]
           end.
    injection Hr as <-. eexists _, _, _. reflexivity.
  - destruct (key_or_index_error (exn_cls e)); [|discriminate].
    injection H as <-. eexists _, _, _. reflexivity.
Qed.

Lemma travel_record_shape_witness :
  exists (km : spec_float) (mins : pyval) (fare : Z),
    _mock_travel (PStr "Abids") (PStr "Charminar")
    = PDict [("distance_km", PFloat km); ("duration_mins", mins);
             ("cab_fare_inr", PInt fare); ("mode", PStr "Uber/Ola")].
Proof.
  exact (travel_record_shape w_no_distance (PStr "Abids") (PStr "Charminar")
           (_mock_travel (PStr "Abids") (PStr "Charminar")) eq_refl).
Defined.

(** ** The tool definitions and the functions *)











(** ** The value of a rounded result *)











(** ** The fare of a journey *)








(** Half-way between two tenths the distance goes the way of the float:
    150 m is 0.1 km, as 0.15 is a float below it; 250 m is 0.2 km, the even
    tenth, and 350 m is 0.3 km. *)
Example distance_half_way :
  py_round1 (B64.of_ratio 150 1000) = B64.of_ratio 1 10
  /\ py_round1 (B64.of_ratio 250 1000) = B64.of_ratio 2 10
  /\ py_round1 (B64.of_ratio 350 1000) = B64.of_ratio 3 10.
Proof. repeat split. Qed.

(** ** A budget that is no number *)

(** X14. Without the keys, a budget that is no number ([null] or a string,
    say) makes each of the three searches raise a [TypeError], at the first
    entry of its mock list: no list is returned, not even an empty one.  The
    executor then answers with the error record of that message. *)
Theorem budget_not_a_number_raises :
  forall (w : world) (budget : pyval),
    not_a_number budget ->
    GOOGLE_API_KEY w = "" ->
    SERPAPI_KEY w = "" ->
    exists msg_product msg_comparison : string,
      (forall area cuisine limit,
          search_restaurants w area budget cuisine limit
          = Raise (Exn TypeError msg_product))
      /\ (forall interests area limit,
            search_places w interests budget area limit
            = Raise (Exn TypeError msg_product))
      /\ (forall genre limit,
            search_movies w genre budget limit
            = Raise (Exn TypeError msg_comparison))
      /\ execute_tool w "search_movies" [("max_ticket_price", budget)]
         = Ok (error_json msg_comparison).
Proof.
  intros w budget Hb Hg Hs.
  unfold search_restaurants, search_places, search_movies, execute_tool,
    tool_result.
  cbn [String.eqb Ascii.eqb Bool.eqb].
  unfold search_movies. rewrite Hg, Hs, no_key_empty.
  destruct budget as [| | | |s|l|d]; try contradiction;
    eexists _, _; repeat split.
Qed.

Lemma budget_not_a_number_witness :
  search_movies w_offline (PStr "action") PNone (PInt 5)
  = Raise (Exn TypeError
             "'<=' not supported between instances of 'int' and 'NoneType'").
Proof.
  destruct (budget_not_a_number_raises w_offline PNone I eq_refl eq_refl)
    as (m1 & m2 & _ & _ & H & _).
  rewrite (H (PStr "action") (PInt 5)).
  specialize (H PNone PNone). vm_compute in H. injection H as <-. reflexivity.
Defined.

(** ** No restaurant above half of the budget *)

(** The cost the table gives, whatever the price level is. *)
Lemma int_dict_get_values (level : pyval) (c : Z) :
  int_dict_get cost_map level 350 = Ok c -> In c [150; 350; 600; 1200].
Proof.
  unfold int_dict_get. destruct (int_key level) as [[n|]|e]; cbn [bind];
    intros H; [| |discriminate].
  - assert (Hc : table_cost n = c).
    { rewrite <- table_cost_lookup. congruence. }
    rewrite <- Hc. apply table_cost_values.
  - assert (Hc : 350 = c) by congruence.
    rewrite <- Hc. simpl. tauto.
Qed.

(** Every record the loop of [search_restaurants] adds costs at most 45% of
    the budget, whatever the places are. *)
Lemma restaurants_loop_within (area : pyval) (B : Z) (x : spec_float)
  (ps : list pyval) :
  float_of_int B = Ok x ->
  forall acc rs,
    Forall (costs_at_most_half B) acc ->
    restaurants_loop area (PInt B) ps acc = Ok rs ->
    Forall (costs_at_most_half B) rs.
Proof.
  intros Hx. induction ps as [|p ps IH]; intros acc rs Hacc H.
  - cbn [restaurants_loop] in H. injection H as <-. exact Hacc.
  - cbn [restaurants_loop] in H.
    destruct (py_get p "price_level" (PInt 2)) as [lvl|e]; [|discriminate].
    cbn [bind] in H.
    destruct (int_dict_get cost_map lvl 350) as [c|e] eqn:Hc; [|discriminate].
    cbn [bind] in H. apply int_dict_get_values in Hc.
    unfold py_mul_float in H. rewrite Hx in H. cbn [bind] in H.
    rewrite (gt_45_percent_exact c B x Hc Hx) in H.
    destruct (Z.ltb_spec (45 * B) (100 * c)) as [Hgt|Hle].
    + exact (IH acc rs Hacc H).
    + destruct (py_get p "name" PNone) as [a1|e]; [|discriminate].
      cbn [bind] in H.
      destruct (py_get p "formatted_address" area) as [a2|e]; [|discriminate].
      cbn [bind] in H.
      destruct (py_get p "rating" (PFloat f_4_0)) as [a3|e]; [|discriminate].
      cbn [bind] in H.
      destruct (py_get p "place_id" PNone) as [a4|e]; [|discriminate].
      cbn [bind] in H.
      refine (IH _ rs _ H).
      apply Forall_app. split; [exact Hacc|].
      constructor; [|constructor].
      exists c. split; [reflexivity|]. simpl in Hc. lia.
Qed.

(** With a budget too large for a float, the loop returns only when there
    is no place to look at. *)
Lemma restaurants_loop_overflow (area : pyval) (B : Z) (e : exn)
  (ps acc rs : list pyval) :
  float_of_int B = Raise e ->
  restaurants_loop area (PInt B) ps acc = Ok rs -> rs = acc.
Proof.
  intros Hx H. destruct ps as [|p ps].
  - cbn [restaurants_loop] in H. congruence.
  - cbn [restaurants_loop] in H.
    destruct (py_get p "price_level" (PInt 2)) as [lvl|e1]; [|discriminate].
    cbn [bind] in H.
    destruct (int_dict_get cost_map lvl 350) as [c|e1]; [|discriminate].
    cbn [bind] in H.
    unfold py_mul_float in H. rewrite Hx in H. discriminate.
Qed.

Lemma mock_restaurants_within (area : pyval) (B : Z) (rs : list pyval) :
  _mock_restaurants area (PInt B) = Ok (PList rs) ->
  Forall (costs_at_most_half B) rs.
Proof.
  intros H. destruct (float_of_int B) as [x|e] eqn:Hx.
  - rewrite (mock_restaurants_exact area B x Hx) in H.
    assert (Hrs : rs = firstn 4 (filter (within_half B) all_restaurants))
      by congruence.
    apply Forall_forall. intros r Hr. rewrite Hrs in Hr.
    apply In_firstn in Hr. apply filter_In in Hr. destruct Hr as [Hin Hw].
    destruct (restaurant_costs r Hin) as (c & Hget & Hc).
    exists c. split; [exact Hget|].
    unfold within_half, int_field in Hw. rewrite Hget in Hw.
    apply Z.leb_le in Hw. simpl in Hc. lia.
  - rewrite (mock_restaurants_overflow area B e Hx) in H. discriminate.
Qed.

(** X15. No restaurant above half of the budget.  Whatever the key, the
    response, the limit and the price levels of the places (integers or
    not), every record [search_restaurants] returns for an integer budget
    [B] has an estimated cost [c] that is an integer with [2 c <= B]: a live
    record costs at most 45% of [B], a mock record at most half of it. *)
Theorem restaurants_cost_at_most_half_budget :
  forall (w : world) (area cuisine limit : pyval) (B : Z) (rs : list pyval),
    search_restaurants w area (PInt B) cuisine limit = Ok (PList rs) ->
    Forall (fun r =>
              exists c, py_getitem_str r "estimated_cost" = Ok (PInt c)
                        /\ 0 < c /\ 2 * c <= B) rs.
Proof.
  intros w area cuisine limit B rs H.
  change (Forall (costs_at_most_half B) rs).
  unfold search_restaurants in H.
  destruct (no_key (GOOGLE_API_KEY w)); [exact (mock_restaurants_within _ _ _ H)|].
  destruct (http_get_json w _ _) as [data|e]; [|discriminate].
  cbn [bind] in H.
  destruct (py_get data "results" (PList [])) as [found|e]; [|discriminate].
  cbn [bind] in H.
  destruct (py_slice_to found limit) as [ps|e]; [|discriminate].
  cbn [bind] in H.
  destruct (restaurants_loop area (PInt B) ps []) as [live|e] eqn:Hloop;
    [|discriminate].
  cbn [bind] in H.
  destruct (py_truthy (PList live)) eqn:Ht.
  - assert (Hrs : rs = live) by congruence. subst rs.
    destruct (float_of_int B) as [x|e] eqn:Hx.
    + exact (restaurants_loop_within area B x ps Hx [] live (Forall_nil _) Hloop).
    + rewrite (restaurants_loop_overflow area B e ps [] live Hx Hloop).
      constructor.
  - exact (mock_restaurants_within _ _ _ H).
Qed.

Lemma restaurants_cost_witness :
  Forall (fun r =>
            exists c, py_getitem_str r "estimated_cost" = Ok (PInt c)
                      /\ 0 < c /\ 2 * c <= 1000)
    [PDict [("name", PStr "Cafe"); ("address", PStr "Abids");
            ("rating", PFloat f_4_0); ("price_level", PStr "cheap");
            ("estimated_cost", PInt 350);
            ("maps_url",
             PStr "https://www.google.com/maps/place/?q=place_id:None");
            ("place_id", PNone)]].
Proof.
  exact (restaurants_cost_at_most_half_budget w_odd_levels (PStr "Abids")
           (PStr "") (PInt 5) 1000 _ eq_refl).
Defined.
